(** * AxiosClient: proxy agent selection and bypass fallback

    A shallow embedding of [src/util/Axios.ts].  The TypeScript class
    [AxiosClient] owns one axios instance, binds a pair of proxy agents to it
    when the account asks for proxying, and retries a failed request once on
    a proxy-free instance when the failure looks network- or proxy-related.

    Strings are byte strings ([string] over [ascii]); a JavaScript string is
    read as its UTF-8 encoding, which is what the URL percent-encoder works
    on.  Object identity (a [new] expression, [axios.create()]) is modelled
    by a reference drawn from an allocation counter.  The collaborators the
    class calls but does not define are parameters: the URL parser, taken
    with the properties of the WHATWG parser the proofs use, the check the
    SOCKS agent's constructor makes of the URL it is given, and the
    transport behind [instance.request].

    The definitions come first: strings and JavaScript values, the [URL]
    class, the class [AxiosClient] itself, a reference URL parser and sample
    inputs.  The properties follow, the claims about the class last. *)

From Stdlib Require Import Bool List String Ascii NArith ZArith Lia.
From Stdlib Require Import DecimalString DecimalN DecimalPos DecimalZ.
Import ListNotations.

Local Open Scope string_scope.

(** ** Characters and strings *)

Module Str.

Definition cc (c : ascii) : N := N_of_ascii c.

Definition in_range (lo hi : N) (c : ascii) : bool :=
  ((lo <=? cc c) && (cc c <=? hi))%N.

Definition is_upper : ascii -> bool := in_range 65 90.
Definition is_lower : ascii -> bool := in_range 97 122.
Definition is_alpha (c : ascii) : bool := is_upper c || is_lower c.
Definition is_digit : ascii -> bool := in_range 48 57.

(** ASCII lower-casing, the only case folding an ASCII pattern can see. *)
Definition to_lower (c : ascii) : ascii :=
  if is_upper c then ascii_of_N (cc c + 32) else c.

Fixpoint map (f : ascii -> ascii) (s : string) : string :=
  match s with
  | EmptyString => EmptyString
  | String c r => String (f c) (map f r)
  end.

Definition lower : string -> string := map to_lower.

Fixpoint all (p : ascii -> bool) (s : string) : bool :=
  match s with
  | EmptyString => true
  | String c r => p c && all p r
  end.

Fixpoint filter (p : ascii -> bool) (s : string) : string :=
  match s with
  | EmptyString => EmptyString
  | String c r => if p c then String c (filter p r) else filter p r
  end.

(** [span p s]: the longest prefix of [s] whose characters satisfy [p],
    and what follows it. *)
Fixpoint span (p : ascii -> bool) (s : string) : string * string :=
  match s with
  | EmptyString => (EmptyString, EmptyString)
  | String c r =>
      if p c then let (a, b) := span p r in (String c a, b)
      else (EmptyString, s)
  end.

(** Split at the first, respectively the last, occurrence of [c]. *)
Fixpoint split_first (c : ascii) (s : string) : option (string * string) :=
  match s with
  | EmptyString => None
  | String x r =>
      if Ascii.eqb x c then Some (EmptyString, r)
      else match split_first c r with
           | Some (a, b) => Some (String x a, b)
           | None => None
           end
  end.

Fixpoint split_last (c : ascii) (s : string) : option (string * string) :=
  match s with
  | EmptyString => None
  | String x r =>
      match split_last c r with
      | Some (a, b) => Some (String x a, b)
      | None => if Ascii.eqb x c then Some (EmptyString, r) else None
      end
  end.

(** [s.startsWith(p)] *)
Fixpoint startsWith (s p : string) {struct p} : bool :=
  match p, s with
  | EmptyString, _ => true
  | String a p', String b s' => Ascii.eqb a b && startsWith s' p'
  | String _ _, EmptyString => false
  end.

Fixpoint strip_prefix (p s : string) {struct p} : option string :=
  match p, s with
  | EmptyString, _ => Some s
  | String a p', String b s' =>
      if Ascii.eqb a b then strip_prefix p' s' else None
  | String _ _, EmptyString => None
  end.

(** [includes s p]: [p] occurs somewhere in [s]. *)
Fixpoint includes (s p : string) : bool :=
  startsWith s p ||
  match s with
  | EmptyString => false
  | String _ r => includes r p
  end.

Definition first_ok (p : ascii -> bool) (s : string) : bool :=
  match s with
  | EmptyString => true
  | String c _ => p c
  end.

Fixpoint last_ok (p : ascii -> bool) (s : string) : bool :=
  match s with
  | EmptyString => true
  | String c EmptyString => p c
  | String _ r => last_ok p r
  end.

Definition differs (c : ascii) : ascii -> bool :=
  fun x => negb (Ascii.eqb x c).

(** [excludes c s]: the character [c] does not occur in [s]. *)
Definition excludes (c : ascii) (s : string) : bool := all (differs c) s.

End Str.

(** ** JavaScript values the class handles *)

Module JS.

(** Truthiness of a value typed [string | undefined]: the empty string and
    [undefined] are falsy. *)
Definition truthy (v : option string) : bool :=
  match v with
  | Some s => negb (s =? "")
  | None => false
  end.

(** [a || b] on such values. *)
Definition or_else (a b : option string) : option string :=
  if truthy a then a else b.

(** [String(v || '')]. *)
Definition String_or_empty (v : option string) : string :=
  match or_else v (Some "") with
  | Some s => s
  | None => ""
  end.

(** Truthiness of [number | undefined], for integers: zero is falsy. *)
Definition truthy_num (v : option Z) : bool :=
  match v with
  | Some n => negb (n =? 0)%Z
  | None => false
  end.

(** [String(n)] for an integer [n]: plain decimal, a leading [-] when
    negative (JavaScript keeps this form below 10^21). *)
Definition String_of_num (n : Z) : string :=
  NilZero.string_of_int (Z.to_int n).

(** [v === lit] for [v : string | undefined]. *)
Definition strict_eq (v : option string) (lit : string) : bool :=
  match v with
  | Some s => s =? lit
  | None => false
  end.

End JS.

(** ** The platform's [URL] class

    [getAgentForProxy] normalises the proxy address through the platform's
    [URL] class: [new URL(s)], the [port], [username] and [password]
    setters, the [protocol] getter and [toString()].  The class is not part
    of the repository; it follows the WHATWG URL Standard.  The record, the
    setters and the serialiser below are written after the standard's
    algorithms.  The parser is a parameter of the resolver, which is
    verified against the properties of the standard's parser that it relies
    on ([URL.ParserLaws]); [RefURL] further down is an executable parser
    that has them. *)

Module URL.

Record t : Type := mk {
  scheme : string;          (* lower case, without the colon *)
  username : string;        (* percent-encoded *)
  password : string;        (* percent-encoded *)
  host : option string;     (* [None]: null host *)
  port : option N;          (* [None]: null, i.e. the scheme's default *)
  tail : string             (* serialised path, query and fragment *)
}.

Definition with_port (u : t) (p : option N) : t :=
  mk (scheme u) (username u) (password u) (host u) p (tail u).
Definition with_username (u : t) (s : string) : t :=
  mk (scheme u) s (password u) (host u) (port u) (tail u).
Definition with_password (u : t) (s : string) : t :=
  mk (scheme u) (username u) s (host u) (port u) (tail u).

(** The [protocol] getter: the scheme followed by a colon. *)
Definition protocol (u : t) : string := scheme u ++ ":".

Definition is_special (sch : string) : bool :=
  (sch =? "ftp") || (sch =? "file") || (sch =? "http") ||
  (sch =? "https") || (sch =? "ws") || (sch =? "wss").

Definition default_port (sch : string) : option N :=
  if sch =? "ftp" then Some 21%N
  else if sch =? "http" then Some 80%N
  else if sch =? "https" then Some 443%N
  else if sch =? "ws" then Some 80%N
  else if sch =? "wss" then Some 443%N
  else None.

(** The port a connection to [u] goes to: the explicit one, else the
    scheme's default. *)
Definition effective_port (u : t) : option N :=
  match port u with
  | Some p => Some p
  | None => default_port (scheme u)
  end.

(** A scheme: a letter followed by letters, digits, [+], [-] and [.]. *)
Definition is_scheme_char (c : ascii) : bool :=
  Str.is_alpha c || Str.is_digit c ||
  Ascii.eqb c "+" || Ascii.eqb c "." || Ascii.eqb c "-".

Definition is_scheme (a : string) : bool :=
  match a with
  | EmptyString => false
  | String c r => Str.is_alpha c && Str.all is_scheme_char r
  end.

(** *** Percent-encoding of credentials *)

(** The userinfo percent-encode set: C0 controls and space, everything
    above [~], the double quote and the punctuation
    [# < > ? ^ ` { } / : ; = @ [ \ ] |], given here by code. *)
Definition in_userinfo_set (c : ascii) : bool :=
  (Str.cc c <=? 32)%N || (127 <=? Str.cc c)%N ||
  existsb (N.eqb (Str.cc c))
    [34; 35; 60; 62; 63; 94; 96; 123; 125;
     47; 58; 59; 61; 64; 91; 92; 93; 124]%N.

Definition hex_digit (n : N) : ascii :=
  if (n <? 10)%N then ascii_of_N (48 + n) else ascii_of_N (55 + n).

Definition hex_value (c : ascii) : option N :=
  if Str.is_digit c then Some (Str.cc c - 48)%N
  else if Str.in_range 65 70 c then Some (Str.cc c - 55)%N
  else if Str.in_range 97 102 c then Some (Str.cc c - 87)%N
  else None.

(** UTF-8 percent-encode with the userinfo set: a byte of the set becomes
    [%] and its two upper-case hexadecimal digits. *)
Fixpoint userinfo_encode (s : string) : string :=
  match s with
  | EmptyString => EmptyString
  | String c r =>
      if in_userinfo_set c
      then String "%" (String (hex_digit (Str.cc c / 16))
                         (String (hex_digit (Str.cc c mod 16))
                            (userinfo_encode r)))
      else String c (userinfo_encode r)
  end.

(** Percent-decode: [%] followed by two hexadecimal digits is the byte
    they denote; every other byte stands for itself. *)
Fixpoint percent_decode (s : string) : string :=
  match s with
  | EmptyString => EmptyString
  | String c r =>
      match r with
      | String h (String l r') =>
          if Ascii.eqb c "%" then
            match hex_value h, hex_value l with
            | Some a, Some b =>
                String (ascii_of_N (16 * a + b)) (percent_decode r')
            | _, _ => String c (percent_decode r)
            end
          else String c (percent_decode r)
      | _ => String c (percent_decode r)
      end
  end.

(** *** Setters *)

(** A URL cannot have a username, password or port when its host is null
    or empty, or its scheme is [file]. *)
Definition can_have_userinfo (u : t) : bool :=
  match host u with
  | Some h => negb (h =? "") && negb (scheme u =? "file")
  | None => false
  end.

Definition set_username (u : t) (value : string) : t :=
  if can_have_userinfo u then with_username u (userinfo_encode value)
  else u.

Definition set_password (u : t) (value : string) : t :=
  if can_have_userinfo u then with_password u (userinfo_encode value)
  else u.

Definition is_tab_or_newline (c : ascii) : bool :=
  (Str.cc c =? 9)%N || (Str.cc c =? 10)%N || (Str.cc c =? 13)%N.

(** The number a non-empty run of decimal digits denotes. *)
Definition digits_value (buffer : string) : N :=
  match NilZero.uint_of_string buffer with
  | Some d => N.of_uint d
  | None => 0%N
  end.

(** The scheme's default port is stored as null. *)
Definition store_port (sch : string) (p : N) : option N :=
  match default_port sch with
  | Some dp => if (dp =? p)%N then None else Some p
  | None => Some p
  end.

(** The [port] setter.  The empty string resets the port.  Otherwise the
    value is read in the parser's port state: the leading digits are the
    port, whatever follows them is ignored; no leading digit, or a number
    above 65535, leaves the URL as it was; the scheme's default port is
    stored as null. *)
Definition set_port (u : t) (value : string) : t :=
  if negb (can_have_userinfo u) then u
  else if value =? "" then with_port u None
  else
    let input := Str.filter (fun c => negb (is_tab_or_newline c)) value in
    let (buffer, _) := Str.span Str.is_digit input in
    if buffer =? "" then u
    else
      let p := digits_value buffer in
      if (65535 <? p)%N then u
      else with_port u (store_port (scheme u) p).

(** *** Serialiser *)

Definition decimal (n : N) : string := NilZero.string_of_uint (N.to_uint n).

Definition credentials (u : t) : string :=
  if (username u =? "") && (password u =? "") then ""
  else username u
       ++ (if password u =? "" then "" else ":" ++ password u) ++ "@".

Definition port_suffix (u : t) : string :=
  match port u with
  | Some p => ":" ++ decimal p
  | None => ""
  end.

(** [toString()], the [href]. *)
Definition href (u : t) : string :=
  scheme u ++ ":"
  ++ match host u with
     | Some h => "//" ++ credentials u ++ h ++ port_suffix u
     | None => ""
     end
  ++ tail u.

(** *** The parser, as an interface *)

Definition userinfo_safe (s : string) : bool :=
  Str.all (fun c => negb (in_userinfo_set c)) s.

(** A stored port is below 65536 and is not the scheme's default. *)
Definition port_ok (sch : string) (p : option N) : bool :=
  match p with
  | Some p => (p <=? 65535)%N
              && match default_port sch with
                 | Some dp => negb (dp =? p)%N
                 | None => true
                 end
  | None => true
  end.

Definition port_canonical (u : t) : bool := port_ok (scheme u) (port u).

(** [assigned u0 u]: the object parsed as [u0] has become [u] through
    assignments to [port], [username] and [password]. *)
Inductive assigned (u0 : t) : t -> Prop :=
| assigned_none : assigned u0 u0
| assigned_port u value :
    assigned u0 u -> assigned u0 (set_port u value)
| assigned_username u value :
    assigned u0 u -> assigned u0 (set_username u value)
| assigned_password u value :
    assigned u0 u -> assigned u0 (set_password u value).

(** [new URL(s)] either throws ([None]) or yields a URL record.  Three
    properties of the standard's parser are used:
    - the scheme of the result is the lower-cased scheme the input starts
      with;
    - a URL of a scheme that has a default port (http, https, ws, wss,
      ftp) has a non-empty host;
    - a parsed URL that has a host, also after assignments to its port
      and credentials, serialises to a string that parses to it again. *)
Record ParserLaws (parse : string -> option t) : Prop := {
  parse_scheme :
    forall a r u,
      is_scheme a = true ->
      parse (a ++ ":" ++ r) = Some u ->
      scheme u = Str.lower a;
  parse_default_port_host :
    forall s u,
      parse s = Some u ->
      default_port (scheme u) <> None ->
      can_have_userinfo u = true;
  parse_href :
    forall s u0 u,
      parse s = Some u0 ->
      can_have_userinfo u0 = true ->
      assigned u0 u ->
      parse (href u) = Some u
}.

End URL.

(** ** Computations that allocate and may throw *)

Inductive Completion (E A : Type) : Type :=
| Normal (a : A)
| Throw (e : E).
Arguments Normal {E A} a.
Arguments Throw {E A} e.

(** A computation over a state [S] that ends normally with a value or
    abruptly with a thrown [E]; the state survives a throw. *)
Definition Eff (S E A : Type) : Type := S -> Completion E A * S.

Definition ret {S E A} (a : A) : Eff S E A := fun s => (Normal a, s).

Definition throw {S E A} (e : E) : Eff S E A := fun s => (Throw e, s).

Definition bind {S E A B} (m : Eff S E A) (k : A -> Eff S E B) : Eff S E B :=
  fun s =>
    match m s with
    | (Normal a, s') => k a s'
    | (Throw e, s') => (Throw e, s')
    end.

(** [try { m } catch (err) { handler err }]. *)
Definition try_catch {S E A} (m : Eff S E A) (handler : E -> Eff S E A)
  : Eff S E A :=
  fun s =>
    match m s with
    | (Normal a, s') => (Normal a, s')
    | (Throw e, s') => handler e s'
    end.

Declare Scope eff_scope.
Delimit Scope eff_scope with eff.
Notation "x <- m ;; k" := (bind m (fun x => k))
  (at level 61, m at next level, right associativity) : eff_scope.

(** ** Objects of the collaborating libraries *)

(** References are drawn from a counter: [new] and [axios.create()] return
    the next one. *)
Definition Heap : Type := nat.

Inductive AgentClass : Type :=
| HttpProxyAgent
| HttpsProxyAgent
| SocksProxyAgent.

(** An agent object: which constructor made it, from which proxy URL, and
    its identity. *)
Record Agent : Type := mkAgent {
  agent_ref : nat;
  agent_class : AgentClass;
  agent_proxy : string
}.

(** [type AgentPair = { httpAgent: any; httpsAgent: any }] *)
Record AgentPair : Type := mkAgentPair {
  httpAgent : Agent;
  httpsAgent : Agent
}.

(** What [getAgentForProxy] and the constructor can throw: the
    [TypeError] of [new URL], the [Error] of line 80, and whatever an agent
    library's constructor throws, by its name and message. *)
Inductive Exn : Type :=
| TypeError_InvalidURL (input : string)
| Error (message : string)
| AgentError (name message : string).

(** [new HttpProxyAgent(proxyUrl)] and [new HttpsProxyAgent(proxyUrl)].
    The constructors belong to the agent libraries.  Given a string, these
    two parse it with [new URL] and keep the result; the string they get
    here is a serialised URL, so they return: a fresh handle that records
    its class and the URL it was given. *)
Definition new_agent (cls : AgentClass) (proxyUrl : string)
  : Eff Heap Exn Agent :=
  fun h => (Normal (mkAgent h cls proxyUrl), S h).

(** [new SocksProxyAgent(proxyUrl)].  This constructor reads the URL it is
    given, its protocol and its credentials among the rest, and throws
    when it does not accept it; [rejects proxyUrl] is what it throws, if
    anything.  Nothing is allocated when it throws. *)
Definition new_checked_agent (rejects : string -> option Exn)
  (cls : AgentClass) (proxyUrl : string) : Eff Heap Exn Agent :=
  fun h =>
    match rejects proxyUrl with
    | Some e => (Throw e, h)
    | None => new_agent cls proxyUrl h
    end.

(** [instance.defaults.proxy]: left alone, axios reads the proxy from the
    environment; [false] turns that off. *)
Inductive ProxySetting : Type :=
| ProxyFromEnvironment
| ProxyFalse.

Record AxiosInstance : Type := mkInstance {
  instance_ref : nat;
  defaults_proxy : ProxySetting;
  defaults_httpAgent : option Agent;
  defaults_httpsAgent : option Agent
}.

(** [axios.create()] *)
Definition axios_create {E} : Eff Heap E AxiosInstance :=
  fun h => (Normal (mkInstance h ProxyFromEnvironment None None), S h).

Definition set_defaults_proxy (i : AxiosInstance) (p : ProxySetting)
  : AxiosInstance :=
  mkInstance (instance_ref i) p (defaults_httpAgent i) (defaults_httpsAgent i).

Definition set_defaults_httpAgent (i : AxiosInstance) (a : Agent)
  : AxiosInstance :=
  mkInstance (instance_ref i) (defaults_proxy i) (Some a)
    (defaults_httpsAgent i).

Definition set_defaults_httpsAgent (i : AxiosInstance) (a : Agent)
  : AxiosInstance :=
  mkInstance (instance_ref i) (defaults_proxy i) (defaults_httpAgent i)
    (Some a).

(** Modelled from the spec: the interface [AccountProxy] of
    [src/interface/Account.ts], which is not among the sources.  The spec's
    ProxyDescriptor has a host-or-url, an optional integer port, optional
    username and password, and the proxy-enabled flag; the class reads them
    as [url], [port], [username], [password] and [proxyAxios]. *)
Record AccountProxy : Type := mkAccountProxy {
  proxyAxios : bool;
  url : option string;
  port : option Z;
  username : option string;
  password : option string
}.

(** A rejection of [instance.request]: the class reads it as
    [{ code?: string; cause?: { code?: string }; message?: string } |
    undefined]. *)
Record ErrorCause : Type := mkCause {
  cause_code : option string
}.

Record ErrorObject : Type := mkError {
  code : option string;
  cause : option ErrorCause;
  message : option string
}.

Definition Thrown : Type := option ErrorObject.

(** ** The class [AxiosClient] *)

Module AxiosClient.

Local Open Scope eff_scope.

(** [private instance: AxiosInstance; private account: AccountProxy] *)
Record t : Type := mk {
  instance : AxiosInstance;
  account : AccountProxy
}.

(** [/^[a-zA-Z][a-zA-Z0-9+.-]*:\/\//.test(url)].  The colon is not in the
    starred class, so the star takes every scheme character and the match
    succeeds exactly when [://] comes next. *)
Definition hasSchemePrefix (url : string) : bool :=
  match url with
  | EmptyString => false
  | String c r =>
      Str.is_alpha c
      && Str.startsWith (snd (Str.span URL.is_scheme_char r)) "://"
  end.

(** The scheme such an address carries: what the pattern matches before
    [://]. *)
Definition explicitScheme (url : string) : string :=
  match url with
  | EmptyString => EmptyString
  | String c r => String c (fst (Str.span URL.is_scheme_char r))
  end.

(** Lines 35-41: [url = String(url || '')], then [https://] in front of
    an address without a scheme. *)
Definition withScheme (url : option string) : string :=
  let url := JS.String_or_empty url in
  if negb (hasSchemePrefix url) then "https://" ++ url else url.

(** [/proxy|tunnel|socks|agent|502|504/i.test(msg)]: one of the six
    words occurs in [msg], letter case aside. *)
Definition proxyPattern (msg : string) : bool :=
  existsb (Str.includes (Str.lower msg))
    ["proxy"; "tunnel"; "socks"; "agent"; "502"; "504"].

(** Lines 95-100: [code = e?.code || e?.cause?.code] compared with the
    four connection error codes. *)
Definition errorCode (e : Thrown) : option string :=
  JS.or_else
    (match e with Some o => code o | None => None end)
    (match e with
     | Some o => match cause o with
                 | Some c => cause_code c
                 | None => None
                 end
     | None => None
     end).

Definition isNetErr (e : Thrown) : bool :=
  let code := errorCode e in
  JS.strict_eq code "ECONNREFUSED" ||
  JS.strict_eq code "ETIMEDOUT" ||
  JS.strict_eq code "ECONNRESET" ||
  JS.strict_eq code "ENOTFOUND".

(** Line 101: [msg = String(e?.message || '')]. *)
Definition messageOf (e : Thrown) : string :=
  JS.String_or_empty (match e with Some o => message o | None => None end).

(** Line 102. *)
Definition looksLikeProxyIssue (e : Thrown) : bool :=
  let msg := messageOf e in
  proxyPattern msg.

Section Resolver.

(** [new URL(_)] *)
Variable parse : string -> option URL.t.

(** What [new SocksProxyAgent(_)] throws on a proxy URL, if anything: the
    library is a collaborator, as the URL parser is. *)
Variable socksAgentError : string -> option Exn.

(** Line 47: [if (port) parsed.port = String(port)]. *)
Definition assignPort (proxyConfig : AccountProxy) (parsed : URL.t)
  : URL.t :=
  match port proxyConfig with
  | Some p =>
      if JS.truthy_num (Some p)
      then URL.set_port parsed (JS.String_of_num p)
      else parsed
  | None => parsed
  end.

(** Lines 50-53: [if (username && username.length)], the user name and
    [password || ''] go into the URL's fields. *)
Definition assignAuth (proxyConfig : AccountProxy) (parsed : URL.t)
  : URL.t :=
  match username proxyConfig with
  | Some username =>
      if JS.truthy (Some username)
         && negb (Nat.eqb (String.length username) 0)
      then
        URL.set_password
          (URL.set_username parsed username)
          (JS.String_or_empty (password proxyConfig))
      else parsed
  | None => parsed
  end.

(** Lines 32-53 of [getAgentForProxy]: the parsed and adjusted proxy
    URL. *)
Definition normalizedProxy (proxyConfig : AccountProxy)
  : Completion Exn URL.t :=
  let url := withScheme (url proxyConfig) in
  match parse url with
  | None => Throw (TypeError_InvalidURL url)
  | Some parsed =>
      let parsed := assignPort proxyConfig parsed in
      let parsed := assignAuth proxyConfig parsed in
      Normal parsed
  end.

(** Lines 56-81: [proxyUrl = parsed.toString()] and the agents chosen by
    [parsed.protocol]. *)
Definition agentsFor (parsed : URL.t) : Eff Heap Exn AgentPair :=
  let proxyUrl := URL.href parsed in
  if URL.protocol parsed =? "http:" then
    httpAgent <- new_agent HttpProxyAgent proxyUrl ;;
    httpsAgent <- new_agent HttpsProxyAgent proxyUrl ;;
    ret (mkAgentPair httpAgent httpsAgent)
  else if URL.protocol parsed =? "https:" then
    httpAgent <- new_agent HttpsProxyAgent proxyUrl ;;
    httpsAgent <- new_agent HttpsProxyAgent proxyUrl ;;
    ret (mkAgentPair httpAgent httpsAgent)
  else if Str.startsWith (URL.protocol parsed) "socks" then
    sa <- new_checked_agent socksAgentError SocksProxyAgent proxyUrl ;;
    ret (mkAgentPair sa sa)
  else
    throw (Error ("Unsupported proxy protocol: " ++ URL.protocol parsed)).

Definition getAgentForProxy (proxyConfig : AccountProxy)
  : Eff Heap Exn AgentPair :=
  match normalizedProxy proxyConfig with
  | Throw e => throw e
  | Normal parsed => agentsFor parsed
  end.

(** Lines 13-28. *)
Definition constructor (account : AccountProxy) : Eff Heap Exn t :=
  instance <- axios_create ;;
  let instance := set_defaults_proxy instance ProxyFalse in
  if JS.truthy (url account) && proxyAxios account then
    agents <- getAgentForProxy account ;;
    let instance := set_defaults_httpAgent instance (httpAgent agents) in
    let instance := set_defaults_httpsAgent instance (httpsAgent agents) in
    ret (mk instance account)
  else
    ret (mk instance account).

End Resolver.

Section Request.

(** The request configuration and the response are opaque to the class.
    The transport behind [instance.request] is a collaborator: from the
    instance the request goes out on, the configuration and the state of
    the network it gives a response or a rejection, and the network's
    next state. *)
Variables Config Response Net : Type.
Variable transport :
  AxiosInstance -> Config -> Net -> Completion Thrown Response * Net.

(** The allocation counter, the network, and the requests that went
    out, oldest first. *)
Record World : Type := mkWorld {
  heap : Heap;
  net : Net;
  wire : list (AxiosInstance * Config)
}.

Definition create_instance : Eff World Thrown AxiosInstance :=
  fun w =>
    match axios_create (E := Thrown) (heap w) with
    | (r, h) => (r, mkWorld h (net w) (wire w))
    end.

(** [i.request(config)], awaited. *)
Definition instance_request (i : AxiosInstance) (config : Config)
  : Eff World Thrown Response :=
  fun w =>
    let (outcome, n) := transport i config (net w) in
    (outcome, mkWorld (heap w) n (wire w ++ [(i, config)])).

(** Lines 84-112. *)
Definition request (this : t) (config : Config) (bypassProxy : bool)
  : Eff World Thrown Response :=
  if bypassProxy then
    bypassInstance <- create_instance ;;
    let bypassInstance := set_defaults_proxy bypassInstance ProxyFalse in
    instance_request bypassInstance config
  else
    try_catch
      (instance_request (instance this) config)
      (fun err =>
         if negb bypassProxy && (isNetErr err || looksLikeProxyIssue err)
         then
           bypassInstance <- create_instance ;;
           let bypassInstance :=
             set_defaults_proxy bypassInstance ProxyFalse in
           instance_request bypassInstance config
         else throw err).

End Request.

Arguments mkWorld {Config Net} heap net wire.
Arguments heap {Config Net} w.
Arguments net {Config Net} w.
Arguments wire {Config Net} w.
Arguments create_instance {Config Net}.
Arguments instance_request {Config Response Net} transport i config.
Arguments request {Config Response Net} transport this config bypassProxy.

(** The instance both bypass paths build: fresh, proxy handling off, no
    agents. *)
Definition bypassInstance (ref : nat) : AxiosInstance :=
  mkInstance ref ProxyFalse None None.

(** The four connection error codes of lines 97-100. *)
Definition networkCodes : list string :=
  ["ECONNREFUSED"; "ETIMEDOUT"; "ECONNRESET"; "ENOTFOUND"].

End AxiosClient.

(** ** The classification of failures, in the words of the specification

    A failure is network related when its error code is one of
    ECONNREFUSED, ETIMEDOUT, ECONNRESET and ENOTFOUND, the code being the
    error's own or, when the error has none (or an empty one), that of its
    cause.  It is proxy-like when its message contains one of the words
    proxy, tunnel, socks, agent, 502 and 504, in any letter case.  These
    two are written from the specification, over the fields of the error,
    to be compared with [AxiosClient.isNetErr] and
    [AxiosClient.looksLikeProxyIssue]. *)
Module Spec.

Definition knownNetworkCode (c : string) : Prop :=
  c = "ECONNREFUSED" \/ c = "ETIMEDOUT" \/ c = "ECONNRESET"
  \/ c = "ENOTFOUND".

Definition NetworkError (err : Thrown) : Prop :=
  exists (e : ErrorObject) (c : string),
    err = Some e /\ knownNetworkCode c
    /\ (code e = Some c
        \/ ((code e = None \/ code e = Some "")
            /\ exists k, cause e = Some k /\ cause_code k = Some c)).

Definition proxyWord (word : string) : Prop :=
  word = "proxy" \/ word = "tunnel" \/ word = "socks" \/ word = "agent"
  \/ word = "502" \/ word = "504".

(** [found] is where the word occurs in the message; lower-casing it gives
    the word. *)
Definition ProxyLikeError (err : Thrown) : Prop :=
  exists (e : ErrorObject) (msg word before found after : string),
    err = Some e /\ message e = Some msg /\ proxyWord word
    /\ msg = before ++ found ++ after /\ Str.lower found = word.

End Spec.

(** ** A reference parser

    An executable parser for the URLs a proxy address takes:
    [scheme://[user[:password]@]host[:port][/path]], for schemes other than
    [file].  On this fragment it follows the standard's state machine
    (scheme, authority, host and port states); anything else it refuses.  It
    has the properties [URL.ParserLaws], and gives the examples their
    concrete URLs. *)

Module RefURL.

Definition printable (c : ascii) : bool := (32 <? Str.cc c)%N.

(** The input needs no preprocessing: no C0 control or space at either
    end, no tab or newline anywhere. *)
Definition clean (s : string) : bool :=
  Str.first_ok printable s && Str.last_ok printable s
  && Str.all (fun c => negb (URL.is_tab_or_newline c)) s.

(** Scheme state: the scheme, lower-cased, and what follows its colon. *)
Definition scan_scheme (s : string) : option (string * string) :=
  match s with
  | EmptyString => None
  | String c r =>
      if Str.is_alpha c then
        let (a, rest) := Str.span URL.is_scheme_char r in
        match Str.strip_prefix ":" rest with
        | Some rest' => Some (Str.lower (String c a), rest')
        | None => None
        end
      else None
  end.

(** The authority ends at [/], [?] or [#], and at a backslash when the
    scheme is special. *)
Definition authority_end (sch : string) (c : ascii) : bool :=
  Ascii.eqb c "/" || Ascii.eqb c "?" || Ascii.eqb c "#"
  || (URL.is_special sch && Ascii.eqb c "\").

Definition host_char (c : ascii) : bool :=
  Str.is_lower c || Str.is_digit c || Ascii.eqb c "." || Ascii.eqb c "-".

Definition tail_char (c : ascii) : bool :=
  Str.is_alpha c || Str.is_digit c || Ascii.eqb c "." || Ascii.eqb c "_"
  || Ascii.eqb c "~" || Ascii.eqb c "-" || Ascii.eqb c "/".

Fixpoint split_on (c : ascii) (s : string) : list string :=
  match s with
  | EmptyString => [EmptyString]
  | String x r =>
      if Ascii.eqb x c then EmptyString :: split_on c r
      else match split_on c r with
           | l :: ls => String x l :: ls
           | [] => [String x EmptyString]
           end
  end.

(** A path the parser would keep as it is: empty, or [/]-led, made of
    unreserved characters, without [.] or [..] segments. *)
Definition tail_ok (tail : string) : bool :=
  (tail =? "")
  || (Str.startsWith tail "/" && Str.all tail_char tail
      && forallb (fun seg => negb ((seg =? ".") || (seg =? "..")))
           (split_on "/" tail)).

(** *** Hosts of special schemes *)

Definition is_numeric_label (l : string) : bool :=
  (negb (l =? "") && Str.all Str.is_digit l)
  || match Str.strip_prefix "0x" l with
     | Some r => Str.all (fun c => Str.is_digit c || Str.in_range 97 102 c) r
     | None => false
     end.

Definition ends_in_number (h : string) : bool :=
  let parts := split_on "." h in
  let parts :=
    match List.last parts "x", parts with
    | EmptyString, _ :: _ :: _ => removelast parts
    | _, _ => parts
    end in
  is_numeric_label (List.last parts "x").

Definition is_ipv4_part (l : string) : bool :=
  negb (l =? "") && Str.all Str.is_digit l
  && ((l =? "0") || negb (Str.startsWith l "0"))
  && (URL.digits_value l <=? 255)%N.

Definition canonical_ipv4 (h : string) : bool :=
  match split_on "." h with
  | [a; b; c; d] =>
      is_ipv4_part a && is_ipv4_part b && is_ipv4_part c && is_ipv4_part d
  | _ => false
  end.

(** A host the domain and IPv4 steps leave as it is: lower-case letters,
    digits, dots and hyphens, no punycode label, and when its last label
    is a number, a dotted quad in canonical form. *)
Definition special_host_ok (h : string) : bool :=
  negb (h =? "") && Str.all host_char h
  && negb (existsb (fun l => Str.startsWith l "xn--") (split_on "." h))
  && (if ends_in_number h then canonical_ipv4 h else true).

Definition host_ok (sch h : string) : bool :=
  if URL.is_special sch then special_host_ok h else Str.all host_char h.

(** *** Authority, host and port states *)

(** The credentials are what precedes the last [@]; the first colon in
    them separates user name and password; both are percent-encoded. *)
Definition parse_userinfo (userinfo : string) : string * string :=
  match Str.split_first ":" userinfo with
  | Some (user, pass) => (URL.userinfo_encode user, URL.userinfo_encode pass)
  | None => (URL.userinfo_encode userinfo, EmptyString)
  end.

Definition parse_port (sch digits : string) : option (option N) :=
  if negb (Str.all Str.is_digit digits) then None
  else if digits =? "" then Some None
  else
    let p := URL.digits_value digits in
    if (65535 <? p)%N then None
    else Some (URL.store_port sch p).

Definition parse_hostport (sch hostport : string)
  : option (string * option N) :=
  match Str.split_first ":" hostport with
  | Some (h, digits) =>
      if h =? "" then None
      else if negb (host_ok sch h) then None
      else match parse_port sch digits with
           | Some p => Some (h, p)
           | None => None
           end
  | None =>
      if host_ok sch hostport then Some (hostport, None) else None
  end.

Definition parse_authority (sch auth : string)
  : option (string * string * string * option N) :=
  match Str.split_last "@" auth with
  | Some (userinfo, hostport) =>
      if hostport =? "" then None
      else match parse_hostport sch hostport with
           | Some (h, p) =>
               let (user, pass) := parse_userinfo userinfo in
               Some (user, pass, h, p)
           | None => None
           end
  | None =>
      match parse_hostport sch auth with
      | Some (h, p) => Some (EmptyString, EmptyString, h, p)
      | None => None
      end
  end.

Definition parse (s : string) : option URL.t :=
  if negb (clean s) then None
  else
    match scan_scheme s with
    | None => None
    | Some (sch, rest) =>
        if sch =? "file" then None
        else
          match Str.strip_prefix "//" rest with
          | None => None
          | Some rest =>
              let (auth, tail) :=
                Str.span (fun c => negb (authority_end sch c)) rest in
              if negb (tail_ok tail) then None
              else
                match parse_authority sch auth with
                | Some (user, pass, h, p) =>
                    Some (URL.mk sch user pass (Some h) p
                            (if URL.is_special sch && (tail =? "")
                             then "/" else tail))
                | None => None
                end
          end
    end.

(** What the reference parser returns: a URL with a host [h], in the
    form the serialiser preserves. *)
Record wf (u : URL.t) (h : string) : Prop := mk_wf {
  wf_host : URL.host u = Some h;
  wf_scheme : URL.is_scheme (URL.scheme u) = true;
  wf_lower : Str.lower (URL.scheme u) = URL.scheme u;
  wf_not_file : (URL.scheme u =? "file") = false;
  wf_host_ok : host_ok (URL.scheme u) h = true;
  wf_tail : tail_ok (URL.tail u) = true;
  wf_tail_special :
    URL.is_special (URL.scheme u) = true -> (URL.tail u =? "") = false;
  wf_user : URL.userinfo_safe (URL.username u) = true;
  wf_pass : URL.userinfo_safe (URL.password u) = true;
  wf_port : URL.port_canonical u = true;
  wf_empty_host :
    h = "" ->
    URL.username u = "" /\ URL.password u = "" /\ URL.port u = None
}.

End RefURL.

(** ** Sample descriptors and a sample transport *)

Module Samples.

Import AxiosClient.

Definition descriptor (url : string) : AccountProxy :=
  mkAccountProxy true (Some url) None None None.

Definition with_port (d : AccountProxy) (p : Z) : AccountProxy :=
  mkAccountProxy (proxyAxios d) (url d) (Some p) (username d) (password d).

Definition with_auth (d : AccountProxy) (user pass : string)
  : AccountProxy :=
  mkAccountProxy (proxyAxios d) (url d) (port d) (Some user) (Some pass).

Definition disabled (d : AccountProxy) : AccountProxy :=
  mkAccountProxy false (url d) (port d) (username d) (password d).

(** A SOCKS agent constructor for the samples, after the one of
    [socks-proxy-agent]: it takes the protocols [socks:], [socks4:],
    [socks4a:], [socks5:] and [socks5h:] and throws a [TypeError] that
    names any other. *)
Definition socksAgent (proxyUrl : string) : option Exn :=
  match Str.split_first ":" proxyUrl with
  | Some (scheme, _) =>
      if existsb (String.eqb scheme)
           ["socks"; "socks4"; "socks4a"; "socks5"; "socks5h"]
      then None
      else Some (AgentError "TypeError"
                   ("A socks protocol must be specified! Got: "
                    ++ scheme ++ ":"))
  | None => Some (AgentError "TypeError" "Invalid URL")
  end.

(** A network on which every request through an agent is rejected with
    [err] and every direct request is answered.  Its state counts the
    requests. *)
Definition deadProxy (err : Thrown)
  : AxiosInstance -> string -> nat -> Completion Thrown string * nat :=
  fun i config n =>
    match defaults_httpAgent i with
    | Some _ => (Throw err, S n)
    | None => (Normal ("200 " ++ config), S n)
    end.

(** A network on which every request is rejected with [err]. *)
Definition allDown (err : Thrown)
  : AxiosInstance -> string -> nat -> Completion Thrown string * nat :=
  fun _ _ n => (Throw err, S n).

(** A client built for [https://proxy.test:8080] on an empty heap. *)
Definition proxied : AxiosClient.t :=
  let proxyUrl := "https://proxy.test:8080/" in
  AxiosClient.mk
    (mkInstance 0 ProxyFalse
       (Some (mkAgent 1 HttpsProxyAgent proxyUrl))
       (Some (mkAgent 2 HttpsProxyAgent proxyUrl)))
    (descriptor "https://proxy.test:8080").

Definition world0 : World string nat := mkWorld 3 0 [].

Definition refused : Thrown :=
  Some (mkError (Some "ECONNREFUSED") None
          (Some "connect ECONNREFUSED 10.0.0.1:8080")).

Definition reset_error : ErrorObject :=
  mkError None (Some (mkCause (Some "ECONNRESET"))) (Some "socket hang up").

Definition nested_reset : Thrown := Some reset_error.

Definition wrapped_refused : Thrown :=
  Some (mkError (Some "ERR_NETWORK") (Some (mkCause (Some "ECONNREFUSED")))
          (Some "Network Error")).

Definition bad_status : Thrown :=
  Some (mkError (Some "ERR_BAD_REQUEST") None
          (Some "Request failed with status code 404")).

Definition proxy_error : Thrown :=
  Some (mkError None None (Some "Proxy Error")).

Definition quoted_proxy_error : Thrown :=
  Some (mkError None None (Some "upstream said: PROXY ERROR (retry)")).

(** A client built with proxying off. *)
Definition direct : AxiosClient.t :=
  AxiosClient.mk (bypassInstance 0)
    (disabled (descriptor "https://proxy.test:8080")).

(** URLs the samples resolve to. *)
Definition https_url (port : option N) : URL.t :=
  URL.mk "https" "" "" (Some "proxy.test") port "/".

Definition auth_url : URL.t :=
  URL.mk "http" "a%40b" "p%3Aq" (Some "proxy.test") (Some 3128%N) "/".

End Samples.

(** * Properties *)

(** ** Strings *)

Module StrFacts.

Lemma app_nil_r (s : string) : s ++ "" = s.
Proof. induction s as [|c s IH]; simpl; [reflexivity | now rewrite IH]. Qed.

Lemma app_assoc (a b c : string) : (a ++ b) ++ c = a ++ (b ++ c).
Proof. induction a as [|x a IH]; simpl; [reflexivity | now rewrite IH]. Qed.

Lemma all_app p (a b : string) :
  Str.all p (a ++ b) = Str.all p a && Str.all p b.
Proof.
  induction a as [|x a IH]; simpl; [reflexivity|].
  now rewrite IH, andb_assoc.
Qed.

Lemma all_impl (p q : ascii -> bool) (s : string) :
  (forall c, p c = true -> q c = true) ->
  Str.all p s = true -> Str.all q s = true.
Proof.
  intros Hpq. induction s as [|c s IH]; simpl; [reflexivity|].
  intros H. apply andb_true_iff in H as [Hc Hs].
  now rewrite (Hpq c Hc), (IH Hs).
Qed.

Lemma all_map p f (s : string) :
  Str.all p (Str.map f s) = Str.all (fun c => p (f c)) s.
Proof. induction s as [|c s IH]; simpl; [reflexivity | now rewrite IH]. Qed.

Lemma filter_all p (s : string) : Str.all p s = true -> Str.filter p s = s.
Proof.
  induction s as [|c s IH]; simpl; [reflexivity|].
  intros H. apply andb_true_iff in H as [Hc Hs].
  now rewrite Hc, (IH Hs).
Qed.

(** [span] stops exactly where a run of [p]-characters meets a character
    that fails [p], or the end. *)
Lemma span_app p (a b : string) :
  Str.all p a = true ->
  Str.first_ok (fun c => negb (p c)) b = true ->
  Str.span p (a ++ b) = (a, b).
Proof.
  intros Ha Hb. induction a as [|x a IH]; simpl in *.
  - destruct b as [|y b]; simpl in *; [reflexivity|].
    apply negb_true_iff in Hb. now rewrite Hb.
  - apply andb_true_iff in Ha as [Hx Ha].
    now rewrite Hx, (IH Ha).
Qed.

Lemma span_all p (a : string) : Str.all p a = true -> Str.span p a = (a, "").
Proof.
  intros Ha. rewrite <- (app_nil_r a) at 1. now apply span_app.
Qed.

Lemma span_fst_all p (s : string) : Str.all p (fst (Str.span p s)) = true.
Proof.
  induction s as [|c s IH]; simpl; [reflexivity|].
  destruct (p c) eqn:Hc; [|reflexivity].
  destruct (Str.span p s) as [a b]; simpl in *. now rewrite Hc, IH.
Qed.

Lemma span_app_eq p (s : string) :
  fst (Str.span p s) ++ snd (Str.span p s) = s.
Proof.
  induction s as [|c s IH]; simpl; [reflexivity|].
  destruct (p c); [|reflexivity].
  destruct (Str.span p s) as [a b]; simpl in *. now rewrite IH.
Qed.

Lemma split_first_none c (s : string) :
  Str.all (Str.differs c) s = true -> Str.split_first c s = None.
Proof.
  unfold Str.differs. induction s as [|x s IH]; simpl; [reflexivity|].
  intros H. apply andb_true_iff in H as [Hx Hs].
  apply negb_true_iff in Hx. now rewrite Hx, (IH Hs).
Qed.

Lemma split_first_app c (a b : string) :
  Str.all (Str.differs c) a = true ->
  Str.split_first c (a ++ String c b) = Some (a, b).
Proof.
  unfold Str.differs. induction a as [|x a IH]; simpl.
  - now rewrite Ascii.eqb_refl.
  - intros H. apply andb_true_iff in H as [Hx Ha].
    apply negb_true_iff in Hx. now rewrite Hx, (IH Ha).
Qed.

Lemma split_last_none c (s : string) :
  Str.all (Str.differs c) s = true -> Str.split_last c s = None.
Proof.
  unfold Str.differs. induction s as [|x s IH]; simpl; [reflexivity|].
  intros H. apply andb_true_iff in H as [Hx Hs].
  apply negb_true_iff in Hx. now rewrite (IH Hs), Hx.
Qed.

Lemma split_last_app c (a b : string) :
  Str.all (Str.differs c) b = true ->
  Str.split_last c (a ++ String c b) = Some (a, b).
Proof.
  intros Hb. induction a as [|x a IH]; simpl.
  - now rewrite (split_last_none c b Hb), Ascii.eqb_refl.
  - now rewrite IH.
Qed.

Lemma startsWith_split (s p : string) :
  Str.startsWith s p = true -> exists r, s = p ++ r.
Proof.
  revert s. induction p as [|x p IH]; intros s; simpl.
  - intros _. now exists s.
  - destruct s as [|y s]; simpl; [discriminate|].
    destruct (Ascii.eqb_spec x y) as [->|]; [|simpl; discriminate].
    simpl. intros H. destruct (IH _ H) as [r ->]. now exists r.
Qed.

Lemma startsWith_app (p s : string) : Str.startsWith (p ++ s) p = true.
Proof.
  induction p as [|x p IH]; simpl; [reflexivity|].
  now rewrite Ascii.eqb_refl.
Qed.

Lemma includes_app (a p b : string) : Str.includes (a ++ p ++ b) p = true.
Proof.
  induction a as [|c a IH].
  - destruct (p ++ b) eqn:E; cbn [append Str.includes]; rewrite <- E;
      now rewrite startsWith_app.
  - cbn [append Str.includes]. rewrite IH. apply orb_true_r.
Qed.

(** [includes] is the substring test. *)
Lemma includes_iff (s p : string) :
  Str.includes s p = true <-> exists a b, s = a ++ p ++ b.
Proof.
  split.
  - induction s as [|c s IH]; cbn [Str.includes]; intros H;
      apply orb_true_iff in H as [H|H]; try discriminate.
    + apply startsWith_split in H as [b ->]. now exists "", b.
    + apply startsWith_split in H as [b ->]. now exists "", b.
    + destruct (IH H) as (a & b & ->). now exists (String c a), b.
  - intros (a & b & ->). apply includes_app.
Qed.

Lemma all_last_ok p (s : string) :
  Str.all p s = true -> Str.last_ok p s = true.
Proof.
  induction s as [|c s IH]; [reflexivity|].
  cbn [Str.all]. intros H. apply andb_true_iff in H as [Hc Hs].
  destruct s; [exact Hc | exact (IH Hs)].
Qed.

Lemma all_first_ok p (s : string) :
  Str.all p s = true -> Str.first_ok p s = true.
Proof.
  destruct s; simpl; [reflexivity|].
  intros H. now apply andb_true_iff in H as [Hc _].
Qed.

End StrFacts.

(** ** Characters *)

Module CharFacts.

(** Decides a statement about one character by running through the 256
    of them. *)
Ltac by_cases c :=
  destruct c as [[] [] [] [] [] [] [] []];
  vm_compute; intros; try reflexivity; try discriminate; try congruence.

Lemma to_lower_idem c : Str.to_lower (Str.to_lower c) = Str.to_lower c.
Proof. by_cases c. Qed.

Lemma to_lower_alpha c :
  Str.is_alpha c = true -> Str.is_alpha (Str.to_lower c) = true.
Proof. by_cases c. Qed.

Lemma to_lower_scheme_char c :
  URL.is_scheme_char c = true -> URL.is_scheme_char (Str.to_lower c) = true.
Proof. by_cases c. Qed.

Lemma alpha_scheme_char c :
  Str.is_alpha c = true -> URL.is_scheme_char c = true.
Proof. by_cases c. Qed.

Lemma scheme_char_printable c :
  URL.is_scheme_char c = true -> RefURL.printable c = true.
Proof. by_cases c. Qed.

Lemma safe_printable c :
  negb (URL.in_userinfo_set c) = true -> RefURL.printable c = true.
Proof. by_cases c. Qed.

Lemma host_printable c :
  RefURL.host_char c = true -> RefURL.printable c = true.
Proof. by_cases c. Qed.

Lemma digit_printable c :
  Str.is_digit c = true -> RefURL.printable c = true.
Proof. by_cases c. Qed.

Lemma tail_printable c :
  RefURL.tail_char c = true -> RefURL.printable c = true.
Proof. by_cases c. Qed.

Lemma printable_no_tab c :
  RefURL.printable c = true -> negb (URL.is_tab_or_newline c) = true.
Proof. by_cases c. Qed.

Lemma digit_no_tab c :
  Str.is_digit c = true -> negb (URL.is_tab_or_newline c) = true.
Proof. by_cases c. Qed.

Lemma safe_in_authority sch c :
  negb (URL.in_userinfo_set c) = true ->
  negb (RefURL.authority_end sch c) = true.
Proof.
  unfold RefURL.authority_end. destruct (URL.is_special sch); by_cases c.
Qed.

Lemma host_in_authority sch c :
  RefURL.host_char c = true -> negb (RefURL.authority_end sch c) = true.
Proof.
  unfold RefURL.authority_end. destruct (URL.is_special sch); by_cases c.
Qed.

Lemma digit_in_authority sch c :
  Str.is_digit c = true -> negb (RefURL.authority_end sch c) = true.
Proof.
  unfold RefURL.authority_end. destruct (URL.is_special sch); by_cases c.
Qed.

Lemma safe_not_colon c :
  negb (URL.in_userinfo_set c) = true -> Str.differs ":" c = true.
Proof. by_cases c. Qed.

Lemma host_not_colon c :
  RefURL.host_char c = true -> Str.differs ":" c = true.
Proof. by_cases c. Qed.

Lemma host_not_at c :
  RefURL.host_char c = true -> Str.differs "@" c = true.
Proof. by_cases c. Qed.

Lemma digit_not_at c :
  Str.is_digit c = true -> Str.differs "@" c = true.
Proof. by_cases c. Qed.

(** What the encoder writes for a byte of the set is outside the set, and
    decodes to the byte. *)
Lemma hex_digits_safe c :
  URL.in_userinfo_set (URL.hex_digit (Str.cc c / 16)) = false
  /\ URL.in_userinfo_set (URL.hex_digit (Str.cc c mod 16)) = false.
Proof. by_cases c; split; reflexivity. Qed.

Lemma hex_round_trip c :
  URL.hex_value (URL.hex_digit (Str.cc c / 16)) = Some (Str.cc c / 16)%N
  /\ URL.hex_value (URL.hex_digit (Str.cc c mod 16))
     = Some (Str.cc c mod 16)%N
  /\ ascii_of_N (16 * (Str.cc c / 16) + Str.cc c mod 16) = c.
Proof. by_cases c; repeat split; reflexivity. Qed.

Lemma percent_safe : URL.in_userinfo_set "%" = false.
Proof. reflexivity. Qed.

End CharFacts.

(** ** Decimal numerals and percent-encoding *)

Module URLFacts.

Import StrFacts.

Lemma uint_digits d : Str.all Str.is_digit (NilEmpty.string_of_uint d) = true.
Proof. induction d; simpl; [reflexivity | assumption ..]. Qed.

Lemma to_uint_nonnil n : N.to_uint n <> Decimal.Nil.
Proof.
  destruct n as [|p]; [discriminate|].
  apply DecimalPos.Unsigned.to_uint_nonnil.
Qed.

Lemma decimal_digits n : Str.all Str.is_digit (URL.decimal n) = true.
Proof.
  unfold URL.decimal, NilZero.string_of_uint.
  destruct (N.to_uint n); try reflexivity; apply uint_digits.
Qed.

Lemma decimal_nonempty n : (URL.decimal n =? "") = false.
Proof.
  unfold URL.decimal, NilZero.string_of_uint.
  destruct (N.to_uint n); reflexivity.
Qed.

Lemma digits_value_decimal n : URL.digits_value (URL.decimal n) = n.
Proof.
  unfold URL.digits_value, URL.decimal.
  rewrite NilZero.usu by apply to_uint_nonnil.
  apply DecimalN.Unsigned.of_to.
Qed.

(** [String(p)] of a positive integer is its decimal numeral. *)
Lemma String_of_num_pos (p : Z) :
  (0 < p)%Z -> JS.String_of_num p = URL.decimal (Z.to_N p).
Proof.
  destruct p as [|q|q]; try lia. intros _. reflexivity.
Qed.

Lemma userinfo_encode_safe s : URL.userinfo_safe (URL.userinfo_encode s) = true.
Proof.
  unfold URL.userinfo_safe. induction s as [|c s IH]; [reflexivity|].
  cbn [URL.userinfo_encode]. destruct (URL.in_userinfo_set c) eqn:Hc.
  - destruct (CharFacts.hex_digits_safe c) as [H1 H2].
    cbn [Str.all]. now rewrite CharFacts.percent_safe, H1, H2, IH.
  - cbn [Str.all]. now rewrite Hc, IH.
Qed.

Lemma userinfo_encode_id s :
  URL.userinfo_safe s = true -> URL.userinfo_encode s = s.
Proof.
  unfold URL.userinfo_safe. induction s as [|c s IH]; [reflexivity|].
  cbn [Str.all URL.userinfo_encode]. intros H.
  apply andb_true_iff in H as [Hc Hs]. apply negb_true_iff in Hc.
  now rewrite Hc, (IH Hs).
Qed.

(** Decoding undoes encoding on text without a percent sign. *)
Lemma percent_decode_encode s :
  Str.all (Str.differs "%") s = true ->
  URL.percent_decode (URL.userinfo_encode s) = s.
Proof.
  induction s as [|c s IH]; [reflexivity|].
  cbn [Str.all URL.userinfo_encode]. intros H.
  apply andb_true_iff in H as [Hc Hs]. specialize (IH Hs).
  destruct (URL.in_userinfo_set c) eqn:Hin.
  - destruct (CharFacts.hex_round_trip c) as (H1 & H2 & H3).
    cbn [URL.percent_decode].
    rewrite Ascii.eqb_refl, H1, H2, H3. now rewrite IH.
  - unfold Str.differs in Hc. apply negb_true_iff in Hc.
    cbn [URL.percent_decode]. rewrite Hc, IH.
    now destruct (URL.userinfo_encode s) as [|h [|l r]].
Qed.

Lemma store_port_ok sch p :
  (p <= 65535)%N -> URL.port_ok sch (URL.store_port sch p) = true.
Proof.
  intros Hle. unfold URL.port_ok, URL.store_port.
  destruct (URL.default_port sch) as [dp|] eqn:E.
  - destruct (N.eqb_spec dp p) as [|Hne]; [reflexivity|].
    apply andb_true_iff; split; [now apply N.leb_le|].
    apply negb_true_iff. now apply N.eqb_neq.
  - rewrite andb_true_r. now apply N.leb_le.
Qed.

Lemma store_port_canonical sch p :
  URL.port_ok sch (Some p) = true -> URL.store_port sch p = Some p.
Proof.
  unfold URL.port_ok, URL.store_port. intros H.
  apply andb_true_iff in H as [_ H].
  destruct (URL.default_port sch) as [dp|]; [|reflexivity].
  apply negb_true_iff in H. now rewrite H.
Qed.

(** Stored or elided, the port in force is the one assigned. *)
Lemma store_port_effective u p :
  URL.effective_port (URL.with_port u (URL.store_port (URL.scheme u) p))
  = Some p.
Proof.
  unfold URL.effective_port, URL.store_port.
  cbn [URL.with_port URL.port URL.scheme].
  destruct (URL.default_port (URL.scheme u)) as [dp|] eqn:E; [|reflexivity].
  now destruct (N.eqb_spec dp p) as [->|].
Qed.

Lemma set_username_scheme u v :
  URL.scheme (URL.set_username u v) = URL.scheme u.
Proof. unfold URL.set_username. now destruct (URL.can_have_userinfo u). Qed.

Lemma set_password_scheme u v :
  URL.scheme (URL.set_password u v) = URL.scheme u.
Proof. unfold URL.set_password. now destruct (URL.can_have_userinfo u). Qed.

Lemma set_port_scheme u v : URL.scheme (URL.set_port u v) = URL.scheme u.
Proof.
  unfold URL.set_port.
  repeat match goal with
         | |- context [if ?b then _ else _] => destruct b
         | |- context [let (_, _) := ?p in _] => destruct p
         end; reflexivity.
Qed.

End URLFacts.

(** ** The reference parser has the interface's properties *)

Module RefFacts.

Import StrFacts.

Lemma lower_idem s : Str.lower (Str.lower s) = Str.lower s.
Proof.
  unfold Str.lower. induction s as [|c s IH]; simpl; [reflexivity|].
  now rewrite CharFacts.to_lower_idem, IH.
Qed.

Lemma lower_is_scheme a :
  URL.is_scheme a = true -> URL.is_scheme (Str.lower a) = true.
Proof.
  destruct a as [|c a]; [discriminate|]. simpl. intros H.
  apply andb_true_iff in H as [Hc Ha].
  rewrite (CharFacts.to_lower_alpha c Hc). simpl.
  rewrite all_map. revert Ha. apply all_impl.
  apply CharFacts.to_lower_scheme_char.
Qed.

Lemma scan_scheme_app a r :
  URL.is_scheme a = true ->
  RefURL.scan_scheme (a ++ ":" ++ r) = Some (Str.lower a, r).
Proof.
  destruct a as [|c a]; [discriminate|]. simpl. intros H.
  apply andb_true_iff in H as [Hc Ha]. rewrite Hc.
  rewrite (span_app URL.is_scheme_char a (String ":" r) Ha eq_refl).
  reflexivity.
Qed.

Lemma scan_scheme_wf s sch rest :
  RefURL.scan_scheme s = Some (sch, rest) ->
  URL.is_scheme sch = true /\ Str.lower sch = sch.
Proof.
  destruct s as [|c r]; [discriminate|]. unfold RefURL.scan_scheme.
  destruct (Str.is_alpha c) eqn:Hc; [|discriminate].
  pose proof (span_fst_all URL.is_scheme_char r) as Ha.
  destruct (Str.span URL.is_scheme_char r) as [a b]; simpl in Ha.
  destruct (Str.strip_prefix ":" b); [|discriminate].
  intros [= <- _].
  change (String (Str.to_lower c) (Str.map Str.to_lower a))
    with (Str.lower (String c a)).
  split; [|apply lower_idem].
  apply lower_is_scheme. simpl. now rewrite Hc, Ha.
Qed.

Lemma host_ok_chars sch h :
  RefURL.host_ok sch h = true -> Str.all RefURL.host_char h = true.
Proof.
  unfold RefURL.host_ok, RefURL.special_host_ok.
  destruct (URL.is_special sch); [|trivial].
  intros H. do 2 apply andb_true_iff in H as [H _].
  now apply andb_true_iff in H as [_ H].
Qed.

Lemma host_ok_special_nonempty sch h :
  URL.is_special sch = true -> RefURL.host_ok sch h = true -> (h =? "") = false.
Proof.
  unfold RefURL.host_ok, RefURL.special_host_ok. intros ->.
  intros H. repeat (apply andb_true_iff in H as [H _]).
  now apply negb_true_iff in H.
Qed.

Lemma parse_port_ok sch digits p :
  RefURL.parse_port sch digits = Some p -> URL.port_ok sch p = true.
Proof.
  unfold RefURL.parse_port.
  destruct (negb (Str.all Str.is_digit digits)); [discriminate|].
  destruct (digits =? ""); [now intros [= <-]|].
  destruct (N.ltb_spec 65535 (URL.digits_value digits)) as [|Hle];
    [discriminate|].
  intros [= <-]. now apply URLFacts.store_port_ok.
Qed.

Lemma parse_port_decimal sch p :
  URL.port_ok sch (Some p) = true ->
  RefURL.parse_port sch (URL.decimal p) = Some (Some p).
Proof.
  unfold RefURL.parse_port. intros H.
  rewrite URLFacts.decimal_digits, URLFacts.decimal_nonempty,
    URLFacts.digits_value_decimal, (URLFacts.store_port_canonical _ _ H).
  apply andb_true_iff in H as [Hle _]. apply N.leb_le in Hle.
  cbn [negb]. destruct (N.ltb_spec 65535 p); [lia | reflexivity].
Qed.

Lemma parse_hostport_ok sch hostport h p :
  RefURL.parse_hostport sch hostport = Some (h, p) ->
  RefURL.host_ok sch h = true /\ URL.port_ok sch p = true
  /\ (h = "" -> p = None) /\ (h = "" -> hostport = "").
Proof.
  unfold RefURL.parse_hostport.
  destruct (Str.split_first ":" hostport) as [[h' digits]|].
  - destruct (String.eqb_spec h' "") as [|Hne]; [discriminate|].
    destruct (RefURL.host_ok sch h') eqn:Hh; [|discriminate]. simpl.
    destruct (RefURL.parse_port sch digits) eqn:Hp; [|discriminate].
    intros [= <- <-]. repeat split; try assumption; try contradiction.
    eapply parse_port_ok; eassumption.
  - destruct (RefURL.host_ok sch hostport) eqn:Hh; [|discriminate].
    intros [= <- <-]. repeat split; trivial.
Qed.

Lemma parse_userinfo_safe userinfo user pass :
  RefURL.parse_userinfo userinfo = (user, pass) ->
  URL.userinfo_safe user = true /\ URL.userinfo_safe pass = true.
Proof.
  unfold RefURL.parse_userinfo.
  destruct (Str.split_first ":" userinfo) as [[a b]|]; intros [= <- <-];
    split; try apply URLFacts.userinfo_encode_safe; reflexivity.
Qed.

Lemma parse_authority_ok sch auth user pass h p :
  RefURL.parse_authority sch auth = Some (user, pass, h, p) ->
  RefURL.host_ok sch h = true /\ URL.port_ok sch p = true
  /\ URL.userinfo_safe user = true /\ URL.userinfo_safe pass = true
  /\ (h = "" -> user = "" /\ pass = "" /\ p = None).
Proof.
  unfold RefURL.parse_authority.
  destruct (Str.split_last "@" auth) as [[userinfo hostport]|].
  - destruct (String.eqb_spec hostport "") as [|Hne]; [discriminate|].
    destruct (RefURL.parse_hostport sch hostport) as [[h' p']|] eqn:Hhp;
      [|discriminate].
    destruct (RefURL.parse_userinfo userinfo) as [us pw] eqn:Hui.
    intros [= <- <- <- <-].
    destruct (parse_hostport_ok _ _ _ _ Hhp) as (Hh & Hp & _ & He).
    destruct (parse_userinfo_safe _ _ _ Hui) as [Hus Hpw].
    split; [|split; [|split; [|split]]]; try assumption.
    intros E. elim Hne. auto.
  - destruct (RefURL.parse_hostport sch auth) as [[h' p']|] eqn:Hhp;
      [|discriminate].
    intros [= <- <- <- <-].
    destruct (parse_hostport_ok _ _ _ _ Hhp) as (Hh & Hp & He & _).
    split; [|split; [|split; [|split]]]; auto.
Qed.

Lemma parse_wf s u : RefURL.parse s = Some u -> exists h, RefURL.wf u h.
Proof.
  unfold RefURL.parse.
  destruct (negb (RefURL.clean s)); [discriminate|].
  destruct (RefURL.scan_scheme s) as [[sch rest]|] eqn:Hs; [|discriminate].
  destruct (sch =? "file") eqn:Hf; [discriminate|].
  destruct (Str.strip_prefix "//" rest) as [rest'|]; [|discriminate].
  destruct (Str.span _ rest') as [auth tail].
  destruct (RefURL.tail_ok tail) eqn:Ht; [|discriminate]. cbn [negb].
  destruct (RefURL.parse_authority sch auth) as [[[[user pass] h] p]|] eqn:Ha;
    [|discriminate].
  intros [= <-]. exists h.
  destruct (scan_scheme_wf _ _ _ Hs) as [Hsch Hlow].
  destruct (parse_authority_ok _ _ _ _ _ _ Ha) as (Hh & Hp & Hus & Hpw & He).
  constructor; cbn [URL.host URL.scheme URL.tail URL.username URL.password
                      URL.port URL.port_canonical]; auto.
  - destruct (URL.is_special sch && (tail =? "")); [reflexivity | exact Ht].
  - intros ->. cbn [andb]. now destruct (tail =? "") eqn:E.
Qed.

(** *** Serialising and parsing again *)

Section RoundTrip.

Variables (u : URL.t) (h : string).
Hypothesis Hwf : RefURL.wf u h.

Let sch := URL.scheme u.
Let hostport := h ++ URL.port_suffix u.
Let auth := URL.credentials u ++ hostport.

Lemma href_eq :
  URL.href u = sch ++ ":" ++ String "/" (String "/" (auth ++ URL.tail u)).
Proof.
  unfold URL.href. rewrite (RefURL.wf_host _ _ Hwf). reflexivity.
Qed.

Lemma port_suffix_all p :
  (forall c, Str.is_digit c = true -> p c = true) ->
  p ":"%char = true ->
  Str.all p (URL.port_suffix u) = true.
Proof.
  intros Hd Hc. unfold URL.port_suffix.
  destruct (URL.port u) as [n|]; [|reflexivity].
  cbn [append Str.all]. rewrite Hc. cbn [andb].
  eapply all_impl; [exact Hd | apply URLFacts.decimal_digits].
Qed.

Lemma hostport_all p :
  (forall c, RefURL.host_char c = true -> p c = true) ->
  (forall c, Str.is_digit c = true -> p c = true) ->
  p ":"%char = true ->
  Str.all p hostport = true.
Proof.
  intros Hh Hd Hc. unfold hostport. rewrite all_app.
  rewrite (port_suffix_all p Hd Hc), andb_true_r.
  eapply all_impl; [exact Hh|].
  eapply host_ok_chars, (RefURL.wf_host_ok _ _ Hwf).
Qed.

Lemma credentials_all p :
  (forall c, negb (URL.in_userinfo_set c) = true -> p c = true) ->
  p ":"%char = true -> p "@"%char = true ->
  Str.all p (URL.credentials u) = true.
Proof.
  intros Hs Hc Ha. unfold URL.credentials.
  destruct ((URL.username u =? "") && (URL.password u =? ""));
    [reflexivity|].
  pose proof (all_impl _ p _ Hs (RefURL.wf_user _ _ Hwf)) as Hu.
  pose proof (all_impl _ p _ Hs (RefURL.wf_pass _ _ Hwf)) as Hp.
  rewrite all_app, Hu. cbn [andb]. rewrite all_app.
  cbn [Str.all]. rewrite Ha, !andb_true_r.
  destruct (URL.password u =? ""); [reflexivity|].
  cbn [append Str.all]. now rewrite Hc, Hp.
Qed.

Lemma auth_all p :
  (forall c, negb (URL.in_userinfo_set c) = true -> p c = true) ->
  (forall c, RefURL.host_char c = true -> p c = true) ->
  (forall c, Str.is_digit c = true -> p c = true) ->
  p ":"%char = true -> p "@"%char = true ->
  Str.all p auth = true.
Proof.
  intros Hs Hh Hd Hc Ha. unfold auth.
  now rewrite all_app, credentials_all, hostport_all.
Qed.

Lemma tail_all_printable : Str.all RefURL.printable (URL.tail u) = true.
Proof.
  pose proof (RefURL.wf_tail _ _ Hwf) as Ht. unfold RefURL.tail_ok in Ht.
  apply orb_true_iff in Ht as [Ht|Ht].
  - apply String.eqb_eq in Ht. now rewrite Ht.
  - apply andb_true_iff in Ht as [Ht _].
    apply andb_true_iff in Ht as [_ Ht].
    revert Ht. apply all_impl, CharFacts.tail_printable.
Qed.

Lemma scheme_all_printable : Str.all RefURL.printable sch = true.
Proof.
  pose proof (RefURL.wf_scheme _ _ Hwf) as Hs. fold sch in Hs.
  destruct sch as [|c r]; [discriminate|]. simpl in Hs |- *.
  apply andb_true_iff in Hs as [Hc Hr].
  rewrite (CharFacts.scheme_char_printable c
             (CharFacts.alpha_scheme_char c Hc)).
  revert Hr. apply all_impl, CharFacts.scheme_char_printable.
Qed.

Lemma href_printable : Str.all RefURL.printable (URL.href u) = true.
Proof.
  rewrite href_eq, all_app, scheme_all_printable.
  cbn [append Str.all andb]. rewrite all_app, tail_all_printable.
  rewrite auth_all;
    auto using CharFacts.safe_printable, CharFacts.host_printable,
      CharFacts.digit_printable.
Qed.

Lemma href_clean : RefURL.clean (URL.href u) = true.
Proof.
  unfold RefURL.clean.
  rewrite (all_first_ok _ _ href_printable),
    (all_last_ok _ _ href_printable).
  cbn [andb]. generalize href_printable.
  apply all_impl, CharFacts.printable_no_tab.
Qed.

Lemma href_scan :
  RefURL.scan_scheme (URL.href u)
  = Some (sch, String "/" (String "/" (auth ++ URL.tail u))).
Proof.
  rewrite href_eq, scan_scheme_app by apply (RefURL.wf_scheme _ _ Hwf).
  unfold sch. now rewrite (RefURL.wf_lower _ _ Hwf).
Qed.

Lemma href_span :
  Str.span (fun c => negb (RefURL.authority_end sch c))
    (auth ++ URL.tail u)
  = (auth, URL.tail u).
Proof.
  apply span_app.
  - apply auth_all;
      auto using CharFacts.safe_in_authority, CharFacts.host_in_authority,
        CharFacts.digit_in_authority;
      unfold RefURL.authority_end; now rewrite andb_false_r.
  - pose proof (RefURL.wf_tail _ _ Hwf) as Ht. unfold RefURL.tail_ok in Ht.
    apply orb_true_iff in Ht as [Ht|Ht].
    + apply String.eqb_eq in Ht. now rewrite Ht.
    + do 2 apply andb_true_iff in Ht as [Ht _].
      apply startsWith_split in Ht as [r ->]. reflexivity.
Qed.

Lemma href_hostport :
  RefURL.parse_hostport sch hostport = Some (h, URL.port u).
Proof.
  pose proof (RefURL.wf_host_ok _ _ Hwf) as Hh. fold sch in Hh.
  pose proof (host_ok_chars _ _ Hh) as Hc.
  pose proof (all_impl _ _ _ CharFacts.host_not_colon Hc) as Hnc.
  pose proof (RefURL.wf_port _ _ Hwf) as Hp. unfold URL.port_canonical in Hp.
  fold sch in Hp.
  unfold RefURL.parse_hostport, hostport, URL.port_suffix.
  destruct (URL.port u) as [n|] eqn:En.
  - cbn [append]. rewrite split_first_app by exact Hnc.
    destruct (String.eqb_spec h "") as [E|_].
    + destruct (RefURL.wf_empty_host _ _ Hwf E) as (_ & _ & E'). congruence.
    + rewrite Hh. cbn [negb]. now rewrite parse_port_decimal.
  - rewrite app_nil_r, split_first_none by exact Hnc. now rewrite Hh.
Qed.

Lemma hostport_no_at : Str.all (Str.differs "@") hostport = true.
Proof.
  apply hostport_all;
    auto using CharFacts.host_not_at, CharFacts.digit_not_at.
Qed.

Lemma href_userinfo :
  RefURL.parse_userinfo
    (URL.username u
     ++ (if URL.password u =? "" then "" else ":" ++ URL.password u))
  = (URL.username u, URL.password u).
Proof.
  pose proof (RefURL.wf_user _ _ Hwf) as Hu.
  pose proof (RefURL.wf_pass _ _ Hwf) as Hp.
  pose proof (all_impl _ _ _ CharFacts.safe_not_colon Hu) as Hnc.
  unfold RefURL.parse_userinfo.
  destruct (String.eqb_spec (URL.password u) "") as [E|_].
  - rewrite app_nil_r, split_first_none by exact Hnc.
    now rewrite URLFacts.userinfo_encode_id, E.
  - cbn [append]. rewrite split_first_app by exact Hnc.
    now rewrite !URLFacts.userinfo_encode_id.
Qed.

Lemma href_authority :
  RefURL.parse_authority sch auth
  = Some (URL.username u, URL.password u, h, URL.port u).
Proof.
  unfold RefURL.parse_authority, auth, URL.credentials.
  destruct ((URL.username u =? "") && (URL.password u =? "")) eqn:E.
  - apply andb_true_iff in E as [Eu Ep].
    apply String.eqb_eq in Eu, Ep. rewrite Eu, Ep. cbn [append].
    now rewrite (split_last_none _ _ hostport_no_at), href_hostport.
  - rewrite !app_assoc.
    rewrite <- (app_assoc (URL.username u)). cbn [append].
    rewrite split_last_app by exact hostport_no_at.
    assert (Hne : h <> "").
    { intros E'. destruct (RefURL.wf_empty_host _ _ Hwf E') as (Eu & Ep & _).
      now rewrite Eu, Ep in E. }
    destruct (String.eqb_spec hostport "") as [E'|_].
    + unfold hostport in E'. destruct h; [easy | discriminate].
    + change (String ":" (URL.password u)) with (":" ++ URL.password u).
      now rewrite href_hostport, href_userinfo.
Qed.

Theorem parse_href_wf : RefURL.parse (URL.href u) = Some u.
Proof.
  unfold RefURL.parse. rewrite href_clean, href_scan. cbn [negb].
  fold sch. unfold sch at 1. rewrite (RefURL.wf_not_file _ _ Hwf).
  cbn [Str.strip_prefix]. rewrite !Ascii.eqb_refl, href_span.
  rewrite (RefURL.wf_tail _ _ Hwf), href_authority. cbn [negb].
  destruct (URL.is_special sch) eqn:Es.
  - rewrite (RefURL.wf_tail_special _ _ Hwf Es). cbn [andb].
    rewrite <- (RefURL.wf_host _ _ Hwf). now destruct u.
  - cbn [andb]. rewrite <- (RefURL.wf_host _ _ Hwf). now destruct u.
Qed.

End RoundTrip.

(** *** The setters keep the form *)

Lemma with_port_wf u h p :
  RefURL.wf u h -> h <> "" -> URL.port_ok (URL.scheme u) p = true ->
  RefURL.wf (URL.with_port u p) h.
Proof.
  intros [] Hne Hp. constructor; auto. intros E. now elim Hne.
Qed.

Lemma set_port_wf u h value :
  RefURL.wf u h -> h <> "" -> RefURL.wf (URL.set_port u value) h.
Proof.
  intros Hwf Hne. unfold URL.set_port.
  destruct (negb (URL.can_have_userinfo u)); [assumption|].
  destruct (value =? ""); [now apply with_port_wf|].
  destruct (Str.span Str.is_digit _) as [buffer rest].
  destruct (buffer =? ""); [assumption|].
  destruct (N.ltb_spec 65535 (URL.digits_value buffer)) as [|Hle];
    [assumption|].
  apply with_port_wf; auto. now apply URLFacts.store_port_ok.
Qed.

Lemma set_username_wf u h value :
  RefURL.wf u h -> h <> "" -> RefURL.wf (URL.set_username u value) h.
Proof.
  intros Hwf Hne. unfold URL.set_username.
  destruct (URL.can_have_userinfo u); [|assumption].
  destruct Hwf. constructor; auto.
  - apply URLFacts.userinfo_encode_safe.
  - intros E. now elim Hne.
Qed.

Lemma set_password_wf u h value :
  RefURL.wf u h -> h <> "" -> RefURL.wf (URL.set_password u value) h.
Proof.
  intros Hwf Hne. unfold URL.set_password.
  destruct (URL.can_have_userinfo u); [|assumption].
  destruct Hwf. constructor; auto.
  - apply URLFacts.userinfo_encode_safe.
  - intros E. now elim Hne.
Qed.

Lemma assigned_wf u0 u h :
  RefURL.wf u0 h -> h <> "" -> URL.assigned u0 u -> RefURL.wf u h.
Proof.
  intros Hwf Hne Ha. induction Ha;
    auto using set_port_wf, set_username_wf, set_password_wf.
Qed.

(** *** The three properties *)

Lemma ref_parse_scheme a r u :
  URL.is_scheme a = true ->
  RefURL.parse (a ++ ":" ++ r) = Some u ->
  URL.scheme u = Str.lower a.
Proof.
  intros Ha. unfold RefURL.parse.
  rewrite (scan_scheme_app a r Ha).
  repeat match goal with
         | |- context [if ?b then _ else _] => destruct b
         | |- context [match ?x with Some _ => _ | None => _ end] =>
             destruct x
         | |- context [let (_, _) := ?x in _] => destruct x
         end; try discriminate; now intros [= <-].
Qed.

Lemma default_port_special sch :
  URL.default_port sch <> None -> URL.is_special sch = true.
Proof.
  unfold URL.default_port, URL.is_special.
  repeat match goal with
         | |- context [if ?b then _ else _] => destruct b
         end; cbn; auto; try (intros H; now elim H);
    rewrite ?orb_true_r; auto.
Qed.

Lemma ref_parse_default_port_host s u :
  RefURL.parse s = Some u ->
  URL.default_port (URL.scheme u) <> None ->
  URL.can_have_userinfo u = true.
Proof.
  intros Hp Hd. destruct (parse_wf _ _ Hp) as [h Hwf].
  unfold URL.can_have_userinfo.
  rewrite (RefURL.wf_host _ _ Hwf), (RefURL.wf_not_file _ _ Hwf).
  rewrite (host_ok_special_nonempty _ _ (default_port_special _ Hd)
             (RefURL.wf_host_ok _ _ Hwf)).
  reflexivity.
Qed.

Lemma ref_parse_href s u0 u :
  RefURL.parse s = Some u0 ->
  URL.can_have_userinfo u0 = true ->
  URL.assigned u0 u ->
  RefURL.parse (URL.href u) = Some u.
Proof.
  intros Hp Hc Ha. destruct (parse_wf _ _ Hp) as [h Hwf].
  apply (parse_href_wf u h). apply (assigned_wf u0); auto.
  intros ->. unfold URL.can_have_userinfo in Hc.
  now rewrite (RefURL.wf_host _ _ Hwf) in Hc.
Qed.

Theorem ref_laws : URL.ParserLaws RefURL.parse.
Proof.
  constructor;
    [exact ref_parse_scheme | exact ref_parse_default_port_host
    | exact ref_parse_href].
Qed.

End RefFacts.

(** ** The resolver *)

Module ResolverFacts.

Import StrFacts AxiosClient.

(** An address the pattern accepts is a scheme, [://] and a rest. *)
Lemma hasSchemePrefix_split url :
  hasSchemePrefix url = true ->
  URL.is_scheme (explicitScheme url) = true
  /\ exists r, url = explicitScheme url ++ ":" ++ "//" ++ r.
Proof.
  destruct url as [|c r0]; [discriminate|].
  unfold hasSchemePrefix, explicitScheme. intros H.
  apply andb_true_iff in H as [Hc Hs].
  pose proof (span_fst_all URL.is_scheme_char r0) as Ha.
  pose proof (span_app_eq URL.is_scheme_char r0) as He.
  destruct (Str.span URL.is_scheme_char r0) as [a b]. cbn [fst snd] in *.
  apply startsWith_split in Hs as [r ->]. split.
  - cbn [URL.is_scheme]. now rewrite Hc, Ha.
  - exists r. cbn [append]. now rewrite <- He.
Qed.

Lemma assigned_scheme u0 u : URL.assigned u0 u -> URL.scheme u = URL.scheme u0.
Proof.
  induction 1; rewrite ?URLFacts.set_port_scheme,
    ?URLFacts.set_username_scheme, ?URLFacts.set_password_scheme; auto.
Qed.

Lemma set_port_host u v : URL.host (URL.set_port u v) = URL.host u.
Proof.
  unfold URL.set_port.
  repeat match goal with
         | |- context [if ?b then _ else _] => destruct b
         | |- context [let (_, _) := ?p in _] => destruct p
         end; reflexivity.
Qed.

Lemma set_username_host u v : URL.host (URL.set_username u v) = URL.host u.
Proof. unfold URL.set_username. now destruct (URL.can_have_userinfo u). Qed.

Lemma set_password_host u v : URL.host (URL.set_password u v) = URL.host u.
Proof. unfold URL.set_password. now destruct (URL.can_have_userinfo u). Qed.

Lemma assigned_can_have u0 u :
  URL.assigned u0 u -> URL.can_have_userinfo u = URL.can_have_userinfo u0.
Proof.
  unfold URL.can_have_userinfo.
  induction 1; rewrite ?set_port_host, ?set_username_host,
    ?set_password_host, ?URLFacts.set_port_scheme,
    ?URLFacts.set_username_scheme, ?URLFacts.set_password_scheme; auto.
Qed.

Section WithParser.

Variable parse : string -> option URL.t.
Variable socksAgentError : string -> option Exn.

Lemma normalizedProxy_eq d :
  normalizedProxy parse d
  = match parse (withScheme (url d)) with
    | None => Throw (TypeError_InvalidURL (withScheme (url d)))
    | Some u0 => Normal (assignAuth d (assignPort d u0))
    end.
Proof. reflexivity. Qed.

Lemma normalizedProxy_inv d parsed :
  normalizedProxy parse d = Normal parsed ->
  exists u0,
    parse (withScheme (url d)) = Some u0
    /\ parsed = assignAuth d (assignPort d u0)
    /\ URL.assigned u0 parsed.
Proof.
  rewrite normalizedProxy_eq.
  destruct (parse (withScheme (url d))) as [u0|]; [|discriminate].
  intros [= <-]. exists u0. split; [reflexivity|]. split; [reflexivity|].
  unfold assignAuth, assignPort.
  destruct (username d) as [un|], (port d) as [p|];
    repeat match goal with
           | |- context [if ?b then _ else _] => destruct b
           end; repeat constructor.
Qed.

Lemma getAgentForProxy_eq d parsed :
  normalizedProxy parse d = Normal parsed ->
  getAgentForProxy parse socksAgentError d = agentsFor socksAgentError parsed.
Proof. unfold getAgentForProxy. now intros ->. Qed.

End WithParser.

(** *** The setters, field by field *)

Lemma set_port_decimal u n :
  URL.can_have_userinfo u = true -> (n <= 65535)%N ->
  URL.set_port u (URL.decimal n)
  = URL.with_port u (URL.store_port (URL.scheme u) n).
Proof.
  intros Hc Hn. unfold URL.set_port.
  rewrite Hc, URLFacts.decimal_nonempty. cbn [negb].
  rewrite filter_all
    by (eapply all_impl;
        [apply CharFacts.digit_no_tab | apply URLFacts.decimal_digits]).
  rewrite (span_all _ _ (URLFacts.decimal_digits n)).
  rewrite URLFacts.decimal_nonempty, URLFacts.digits_value_decimal.
  destruct (N.ltb_spec 65535 n); [lia | reflexivity].
Qed.


Lemma assignAuth_port d u : URL.port (assignAuth d u) = URL.port u.
Proof.
  unfold assignAuth, URL.set_password, URL.set_username.
  destruct (username d) as [un|]; [|reflexivity].
  destruct (JS.truthy (Some un) && _); [|reflexivity].
  destruct (URL.can_have_userinfo u) eqn:E; [|now rewrite E].
  unfold URL.can_have_userinfo in *.
  cbn [URL.with_username URL.host URL.scheme]. now rewrite E.
Qed.

Lemma assignAuth_scheme d u : URL.scheme (assignAuth d u) = URL.scheme u.
Proof.
  unfold assignAuth. destruct (username d) as [un|]; [|reflexivity].
  destruct (JS.truthy (Some un) && _); [|reflexivity].
  now rewrite URLFacts.set_password_scheme, URLFacts.set_username_scheme.
Qed.

Lemma set_credentials u un pw :
  URL.can_have_userinfo u = true ->
  let u' := URL.set_password (URL.set_username u un) pw in
  URL.username u' = URL.userinfo_encode un
  /\ URL.password u' = URL.userinfo_encode pw.
Proof.
  intros Hc. unfold URL.set_password, URL.set_username. rewrite Hc.
  unfold URL.can_have_userinfo in *.
  cbn [URL.with_username URL.host URL.scheme]. rewrite Hc.
  split; reflexivity.
Qed.




Lemma truthy_nonempty un : un <> "" -> JS.truthy (Some un) = true.
Proof. destruct un; [easy | reflexivity]. Qed.

Lemma length_nonempty un : un <> "" -> Nat.eqb (String.length un) 0 = false.
Proof. destruct un; [easy | reflexivity]. Qed.

Lemma truthy_false v : JS.truthy v = false -> v = None \/ v = Some "".
Proof.
  destruct v as [[|c r]|]; [now right | discriminate | now left].
Qed.

End ResolverFacts.

(** ** What the resolver does to the proxy address *)

Section ResolverClaims.

Import AxiosClient ResolverFacts.

Variable parse : string -> option URL.t.
Variable socksAgentError : string -> option Exn.
Hypothesis parse_laws : URL.ParserLaws parse.

(** C3.  An address without a [scheme://] prefix is parsed with
    [https://] put in front of it, and the resolved URL's protocol is
    [https:]; an address with such a prefix is parsed as it is, and the
    resolved URL's protocol is that scheme (in lower case, as URLs carry
    it), never replaced by [https]. *)
Theorem scheme_defaulting (d : AccountProxy) (parsed : URL.t) :
  normalizedProxy parse d = Normal parsed ->
  let address := JS.String_or_empty (url d) in
  (hasSchemePrefix address = false ->
   withScheme (url d) = "https://" ++ address
   /\ URL.protocol parsed = "https:")
  /\ (hasSchemePrefix address = true ->
      withScheme (url d) = address
      /\ URL.protocol parsed = Str.lower (explicitScheme address) ++ ":").
Proof.
  intros H address.
  destruct (normalizedProxy_inv parse d parsed H) as (u0 & Hp & _ & Ha).
  unfold URL.protocol. rewrite (assigned_scheme _ _ Ha).
  unfold withScheme in *. fold address in Hp |- *.
  split; intros Hs; rewrite Hs in *; cbn [negb] in *;
    (split; [reflexivity|]).
  - now rewrite (URL.parse_scheme parse parse_laws "https" ("//" ++ address) u0
                   eq_refl Hp).
  - destruct (hasSchemePrefix_split address Hs) as [Hsch [r Hr]].
    rewrite Hr in Hp.
    now rewrite (URL.parse_scheme parse parse_laws _ _ u0 Hsch Hp).
Qed.

(** A resolved http, https, ws, wss or ftp URL has a host, so that the
    setters act on it. *)
Lemma special_has_host (d : AccountProxy) (parsed : URL.t) :
  normalizedProxy parse d = Normal parsed ->
  URL.default_port (URL.scheme parsed) <> None ->
  URL.can_have_userinfo parsed = true.
Proof.
  intros H Hd.
  destruct (normalizedProxy_inv parse d parsed H) as (u0 & Hp & _ & Ha).
  rewrite (assigned_can_have _ _ Ha).
  rewrite (assigned_scheme _ _ Ha) in Hd.
  exact (URL.parse_default_port_host parse parse_laws _ u0 Hp Hd).
Qed.

(** C4, as amended.  An explicit port between 1 and 65535 becomes the
    port of the resolved URL whatever port the address carried, provided
    the URL has a host: it is stored, or left out of the URL when it is
    the scheme's default, and either way it is the port in force. *)
Theorem explicit_port_overrides (d : AccountProxy) (p : Z) (parsed : URL.t) :
  port d = Some p ->
  (1 <= p <= 65535)%Z ->
  normalizedProxy parse d = Normal parsed ->
  URL.can_have_userinfo parsed = true ->
  URL.port parsed = URL.store_port (URL.scheme parsed) (Z.to_N p)
  /\ URL.effective_port parsed = Some (Z.to_N p).
Proof.
  intros Hport Hp H Hc.
  destruct (normalizedProxy_inv parse d parsed H) as (u0 & _ & -> & Ha).
  rewrite (assigned_can_have _ _ Ha) in Hc.
  assert (E : assignPort d u0
              = URL.with_port u0 (URL.store_port (URL.scheme u0) (Z.to_N p))).
  { unfold assignPort. rewrite Hport.
    replace (JS.truthy_num (Some p)) with true
      by (symmetry; apply negb_true_iff, Z.eqb_neq; lia).
    rewrite URLFacts.String_of_num_pos by lia.
    apply set_port_decimal; [assumption | lia]. }
  unfold URL.effective_port.
  rewrite assignAuth_port, assignAuth_scheme, E.
  split; [reflexivity|]. apply URLFacts.store_port_effective.
Qed.


(** *** The agents *)

Lemma socks_not_http proto :
  Str.startsWith proto "socks" = true ->
  (proto =? "http:") = false /\ (proto =? "https:") = false.
Proof.
  intros H. split; apply String.eqb_neq; intros ->; discriminate.
Qed.

(** C6.  When the resolved URL's protocol starts with [socks], every pair
    resolution returns has one and the same object in both fields: a
    single [SocksProxyAgent], made from the serialised proxy URL, and the
    only object allocated.  The SOCKS constructor is called once, on that
    URL: where it returns, resolution returns this pair; where it throws,
    resolution throws what it threw, and there is no pair. *)
Theorem socks_single_agent (d : AccountProxy) (parsed : URL.t) (h : Heap) :
  normalizedProxy parse d = Normal parsed ->
  Str.startsWith (URL.protocol parsed) "socks" = true ->
  let sa := mkAgent h SocksProxyAgent (URL.href parsed) in
  (forall agents h',
      getAgentForProxy parse socksAgentError d h = (Normal agents, h') ->
      httpAgent agents = sa /\ httpsAgent agents = sa
      /\ agent_ref (httpAgent agents) = agent_ref (httpsAgent agents)
      /\ h' = S h)
  /\ getAgentForProxy parse socksAgentError d h
     = match socksAgentError (URL.href parsed) with
       | None => (Normal (mkAgentPair sa sa), S h)
       | Some e => (Throw e, h)
       end.
Proof.
  intros H Hs sa.
  assert (E : getAgentForProxy parse socksAgentError d h
              = match socksAgentError (URL.href parsed) with
                | None => (Normal (mkAgentPair sa sa), S h)
                | Some e => (Throw e, h)
                end).
  { rewrite (getAgentForProxy_eq parse socksAgentError d parsed H).
    unfold agentsFor. destruct (socks_not_http _ Hs) as [-> ->]. rewrite Hs.
    unfold bind, new_checked_agent.
    now destruct (socksAgentError (URL.href parsed)). }
  split; [|exact E].
  intros agents h'. rewrite E.
  destruct (socksAgentError (URL.href parsed)); [discriminate|].
  intros [= <- <-]. repeat split.
Qed.

(** C7, as amended.  For protocol [https:] the two agents are both
    [HttpsProxyAgent]s made from the same serialised proxy URL, but two
    objects, each constructed on its own.  For protocol [http:] the first
    is an [HttpProxyAgent] and the second a distinct [HttpsProxyAgent]. *)
Theorem http_and_https_agents (d : AccountProxy) (parsed : URL.t) (h : Heap) :
  normalizedProxy parse d = Normal parsed ->
  (URL.protocol parsed = "https:" ->
   exists agents,
     getAgentForProxy parse socksAgentError d h = (Normal agents, S (S h))
     /\ httpAgent agents = mkAgent h HttpsProxyAgent (URL.href parsed)
     /\ httpsAgent agents = mkAgent (S h) HttpsProxyAgent (URL.href parsed)
     /\ agent_ref (httpAgent agents) <> agent_ref (httpsAgent agents))
  /\ (URL.protocol parsed = "http:" ->
      exists agents,
        getAgentForProxy parse socksAgentError d h = (Normal agents, S (S h))
        /\ httpAgent agents = mkAgent h HttpProxyAgent (URL.href parsed)
        /\ httpsAgent agents = mkAgent (S h) HttpsProxyAgent (URL.href parsed)
        /\ agent_ref (httpAgent agents) <> agent_ref (httpsAgent agents)).
Proof.
  intros H. rewrite (getAgentForProxy_eq parse socksAgentError d parsed H). unfold agentsFor.
  split; intros ->; cbn [String.eqb Ascii.eqb Bool.eqb];
    eexists; (split; [reflexivity|]); cbn [httpAgent httpsAgent agent_ref];
    repeat split; auto.
Qed.

(** C8.  When the resolved URL's protocol is neither [http:] nor [https:]
    and does not start with [socks], resolution throws an error whose
    message names the protocol and returns no pair; a constructor call
    that resolves agents ends with the same error, and no client. *)
Theorem unsupported_protocol (d : AccountProxy) (parsed : URL.t) (h : Heap) :
  normalizedProxy parse d = Normal parsed ->
  URL.protocol parsed <> "http:" ->
  URL.protocol parsed <> "https:" ->
  Str.startsWith (URL.protocol parsed) "socks" = false ->
  let err := Error ("Unsupported proxy protocol: " ++ URL.protocol parsed) in
  getAgentForProxy parse socksAgentError d h = (Throw err, h)
  /\ (JS.truthy (url d) && proxyAxios d = true ->
      constructor parse socksAgentError d h = (Throw err, S h)).
Proof.
  intros H H1 H2 Hs err.
  assert (E : forall h0, getAgentForProxy parse socksAgentError d h0 = (Throw err, h0)).
  { intros h0. rewrite (getAgentForProxy_eq parse socksAgentError d parsed H). unfold agentsFor.
    apply String.eqb_neq in H1, H2. now rewrite H1, H2, Hs. }
  split; [apply E|]. intros He.
  unfold AxiosClient.constructor, bind, axios_create. rewrite He.
  now rewrite E.
Qed.

(** C2.  Every client the constructor returns has the HTTP client's own
    proxy handling switched off.  When the descriptor has a non-empty
    address and the proxy flag, its default agents are the pair the
    resolver returned for the descriptor; otherwise it has no agents. *)
Theorem constructor_binds_agents
  (d : AccountProxy) (h h' : Heap) (c : AxiosClient.t) :
  constructor parse socksAgentError d h = (Normal c, h') ->
  defaults_proxy (instance c) = ProxyFalse
  /\ account c = d
  /\ (JS.truthy (url d) && proxyAxios d = true ->
      exists agents,
        getAgentForProxy parse socksAgentError d (S h) = (Normal agents, h')
        /\ defaults_httpAgent (instance c) = Some (httpAgent agents)
        /\ defaults_httpsAgent (instance c) = Some (httpsAgent agents))
  /\ (JS.truthy (url d) && proxyAxios d = false ->
      defaults_httpAgent (instance c) = None
      /\ defaults_httpsAgent (instance c) = None).
Proof.
  unfold AxiosClient.constructor, bind, axios_create, ret.
  destruct (JS.truthy (url d) && proxyAxios d).
  - destruct (getAgentForProxy parse socksAgentError d (S h)) as [[agents|e] h1];
      [|discriminate].
    intros [= <- <-]. repeat split; try discriminate.
    intros _. now exists agents.
  - intros [= <- <-]. repeat split; discriminate.
Qed.

End ResolverClaims.

(** ** Classification of a failure *)

Module ClassifyFacts.

Import AxiosClient.

(** [looksLikeProxyIssue] holds exactly when one of the six words occurs
    in the message, letter case aside. *)
Lemma looksLikeProxyIssue_iff (e : Thrown) :
  looksLikeProxyIssue e = true
  <-> exists word a b,
      In word ["proxy"; "tunnel"; "socks"; "agent"; "502"; "504"]
      /\ Str.lower (messageOf e) = a ++ word ++ b.
Proof.
  unfold looksLikeProxyIssue, proxyPattern. rewrite existsb_exists. split.
  - intros (word & Hin & H). apply StrFacts.includes_iff in H as (a & b & H).
    now exists word, a, b.
  - intros (word & a & b & Hin & H). exists word. split; [exact Hin|].
    apply StrFacts.includes_iff. now exists a, b.
Qed.

Lemma strict_eq_iff v lit : JS.strict_eq v lit = true <-> v = Some lit.
Proof.
  destruct v as [x|]; cbn; [|split; discriminate].
  rewrite String.eqb_eq. split; [now intros -> | now intros [= ->]].
Qed.

(** [isNetErr] holds exactly when the code picked by
    [e?.code || e?.cause?.code] is one of the four. *)
Lemma isNetErr_iff (e : Thrown) :
  isNetErr e = true
  <-> exists c, In c networkCodes /\ errorCode e = Some c.
Proof.
  unfold isNetErr, networkCodes. rewrite !orb_true_iff, !strict_eq_iff.
  cbn [In]. split.
  - intros [[[H|H]|H]|H]; eexists; (split; [|exact H]); tauto.
  - intros (c & Hin & H). decompose [or] Hin; subst; tauto.
Qed.

Lemma map_app f (a b : string) :
  Str.map f (a ++ b) = Str.map f a ++ Str.map f b.
Proof. induction a as [|c a IH]; simpl; [reflexivity | now rewrite IH]. Qed.

Lemma map_app_inv f (s x y : string) :
  Str.map f s = x ++ y ->
  exists a b, s = a ++ b /\ Str.map f a = x /\ Str.map f b = y.
Proof.
  revert s. induction x as [|c x IH]; intros s H.
  - now exists "", s.
  - destruct s as [|c' s]; [discriminate|]. simpl in H.
    injection H as Hc Hr.
    destruct (IH s Hr) as (a & b & -> & <- & <-).
    exists (String c' a), b. simpl. now rewrite Hc.
Qed.

(** The code's test for a network error is the specification's. *)
Lemma NetworkError_iff (err : Thrown) :
  Spec.NetworkError err <-> isNetErr err = true.
Proof.
  rewrite isNetErr_iff.
  unfold Spec.NetworkError, Spec.knownNetworkCode, networkCodes, errorCode,
    JS.or_else.
  cbn [In]. split.
  - intros (e & c & -> & Hk & Hloc). exists c.
    split; [intuition congruence|].
    destruct Hloc as [E | ([E|E] & k & Ek & Ec)].
    + rewrite E. replace (JS.truthy (Some c)) with true; [reflexivity|].
      decompose [or] Hk; subst; reflexivity.
    + rewrite E, Ek. exact Ec.
    + rewrite E, Ek. exact Ec.
  - intros (c & Hin & H). destruct err as [e|]; [|discriminate].
    exists e, c. split; [reflexivity|]. split; [intuition congruence|].
    destruct (JS.truthy (code e)) eqn:Et.
    + left. exact H.
    + right. split; [now apply ResolverFacts.truthy_false|].
      destruct (cause e) as [k|]; [|discriminate]. now exists k.
Qed.

(** So is its test for a proxy-like message. *)
Lemma ProxyLikeError_iff (err : Thrown) :
  Spec.ProxyLikeError err <-> looksLikeProxyIssue err = true.
Proof.
  rewrite looksLikeProxyIssue_iff.
  unfold Spec.ProxyLikeError, Spec.proxyWord, messageOf. cbn [In]. split.
  - intros (e & msg & word & before & found & after
            & -> & Hm & Hw & -> & Hl).
    exists word, (Str.lower before), (Str.lower after).
    split; [intuition congruence|].
    rewrite Hm. replace (JS.String_or_empty (Some (before ++ found ++ after)))
      with (before ++ found ++ after) by (now destruct before, found, after).
    unfold Str.lower in *. now rewrite !map_app, Hl.
  - intros (word & a & b & Hin & H).
    assert (Hne : word <> "") by (intros ->; intuition discriminate).
    assert (Hnil : "" <> a ++ word ++ b).
    { destruct a; [|discriminate]. destruct word; [easy | discriminate]. }
    destruct err as [e|]; [|now elim Hnil].
    destruct (message e) as [msg|] eqn:Hm; [|now elim Hnil].
    destruct msg as [|c msg]; [now elim Hnil|].
    change (JS.String_or_empty (Some (String c msg))) with (String c msg) in H.
    unfold Str.lower in H.
    apply map_app_inv in H as (before & rest & Emsg & <- & H).
    apply map_app_inv in H as (found & after & -> & Hl & <-).
    exists e, (String c msg), word, before, found, after.
    repeat split; auto. intuition congruence.
Qed.

End ClassifyFacts.

(** ** Requests *)

Section RequestClaims.

Import AxiosClient.

Variables Config Response Net : Type.
Variable transport :
  AxiosInstance -> Config -> Net -> Completion Thrown Response * Net.

Let World := AxiosClient.World Config Net.

Lemma instance_request_eq i config w :
  instance_request transport i config w
  = (fst (transport i config (net w)),
     mkWorld (heap w) (snd (transport i config (net w)))
       (wire w ++ [(i, config)])).
Proof.
  unfold instance_request. now destruct (transport i config (net w)).
Qed.

(** What [request] does once the first attempt has failed. *)
Lemma request_failed this config w err n1 :
  transport (instance this) config (net w) = (Throw err, n1) ->
  request transport this config false w
  = if isNetErr err || looksLikeProxyIssue err
    then (fst (transport (bypassInstance (heap w)) config n1),
          mkWorld (S (heap w))
            (snd (transport (bypassInstance (heap w)) config n1))
            (wire w ++ [(instance this, config);
                        (bypassInstance (heap w), config)]))
    else (Throw err,
          mkWorld (heap w) n1 (wire w ++ [(instance this, config)])).
Proof.
  intros H. unfold request, try_catch.
  rewrite instance_request_eq, H. cbn [fst snd negb andb].
  destruct (isNetErr err || looksLikeProxyIssue err); [|reflexivity].
  unfold bind, create_instance, axios_create. cbn [heap net wire].
  rewrite instance_request_eq. cbn [heap net wire].
  now rewrite <- app_assoc.
Qed.

(** C1.  When the first attempt of a non-bypass request fails with an
    error that is network related (its code is ECONNREFUSED, ETIMEDOUT,
    ECONNRESET or ENOTFOUND) or proxy-like (its message contains proxy,
    tunnel, socks, agent, 502 or 504, in any letter case), the same
    configuration is sent once more, on a fresh instance with proxy
    handling off and no agents, and whatever that attempt gives, response
    or rejection, is the result; two requests went out in all.  When the
    error is neither, the result is that error itself and only the one
    request went out. *)
Theorem fallback_once
  (this : AxiosClient.t) (config : Config) (w : World)
  (err : Thrown) (n1 : Net) :
  transport (instance this) config (net w) = (Throw err, n1) ->
  let bypass := bypassInstance (heap w) in
  (Spec.NetworkError err \/ Spec.ProxyLikeError err ->
   request transport this config false w
   = (fst (transport bypass config n1),
      mkWorld (S (heap w)) (snd (transport bypass config n1))
        (wire w ++ [(instance this, config); (bypass, config)])))
  /\ (~ Spec.NetworkError err -> ~ Spec.ProxyLikeError err ->
      request transport this config false w
      = (Throw err,
         mkWorld (heap w) n1 (wire w ++ [(instance this, config)]))).
Proof.
  intros H bypass. rewrite (request_failed this config w err n1 H).
  split.
  - intros Hc.
    replace (isNetErr err || looksLikeProxyIssue err) with true;
      [reflexivity|].
    symmetry. apply orb_true_iff.
    destruct Hc as [Hc|Hc];
      [left; now apply ClassifyFacts.NetworkError_iff
      |right; now apply ClassifyFacts.ProxyLikeError_iff].
  - intros Hn Hp.
    replace (isNetErr err || looksLikeProxyIssue err) with false;
      [reflexivity|].
    symmetry. apply orb_false_iff.
    split; apply not_true_is_false; intros E;
      [apply Hn; now apply ClassifyFacts.NetworkError_iff
      |apply Hp; now apply ClassifyFacts.ProxyLikeError_iff].
Qed.

(** C9.  With [bypassProxy = true] the request goes out at once, on a
    fresh instance with proxy handling off and no agents; the result is
    what that one request gives, whatever it is, and nothing of the
    client, its instance and agents included, enters into it. *)
Theorem bypass_is_direct
  (this : AxiosClient.t) (config : Config) (w : World) :
  let bypass := bypassInstance (heap w) in
  request transport this config true w
  = (fst (transport bypass config (net w)),
     mkWorld (S (heap w)) (snd (transport bypass config (net w)))
       (wire w ++ [(bypass, config)])).
Proof.
  intros bypass. unfold request, bind, create_instance, axios_create.
  cbn [heap net wire]. now rewrite instance_request_eq.
Qed.

(** C10, as amended.  A failure is classified as network-related when one
    of the four codes is the error's own [code], or is the [code] of its
    [cause] while the error's own [code] is missing or empty; in both
    cases the request is retried on the bypass instance. *)
Theorem cause_code_fallback
  (this : AxiosClient.t) (config : Config) (w : World)
  (e : ErrorObject) (n1 : Net) (c : string) :
  In c networkCodes ->
  transport (instance this) config (net w) = (Throw (Some e), n1) ->
  code e = Some c
  \/ (JS.truthy (code e) = false
      /\ exists k, cause e = Some k /\ cause_code k = Some c) ->
  let bypass := bypassInstance (heap w) in
  isNetErr (Some e) = true
  /\ request transport this config false w
     = (fst (transport bypass config n1),
        mkWorld (S (heap w)) (snd (transport bypass config n1))
          (wire w ++ [(instance this, config); (bypass, config)])).
Proof.
  intros Hc H Hloc bypass.
  assert (Hnet : isNetErr (Some e) = true).
  { assert (Ec : errorCode (Some e) = Some c).
    { unfold errorCode, JS.or_else.
      destruct Hloc as [E | (Hf & k & Ek & Ec)].
      - rewrite E. replace (JS.truthy (Some c)) with true; [reflexivity|].
        cbn in Hc. now decompose [or] Hc; subst.
      - now rewrite Hf, Ek. }
    unfold isNetErr. rewrite Ec. cbn in Hc.
    decompose [or] Hc; subst; try reflexivity; contradiction. }
  split; [exact Hnet|].
  now rewrite (request_failed this config w (Some e) n1 H), Hnet.
Qed.

End RequestClaims.

(** ** The claims on the samples *)

Module Checks.

Import AxiosClient Samples.

(** C3 on a bare host and on an address with a scheme. *)
Lemma scheme_defaulting_witness :
  (normalizedProxy RefURL.parse (descriptor "proxy.test")
   = Normal (https_url None)
   /\ URL.protocol (https_url None) = "https:")
  /\ (normalizedProxy RefURL.parse (descriptor "socks5://proxy.test:1080")
      = Normal (URL.mk "socks5" "" "" (Some "proxy.test") (Some 1080%N) "")
      /\ URL.protocol
           (URL.mk "socks5" "" "" (Some "proxy.test") (Some 1080%N) "")
         = "socks5:").
Proof.
  split; (split; [reflexivity|]).
  - exact (proj2 (proj1 (scheme_defaulting RefURL.parse RefFacts.ref_laws
                           (descriptor "proxy.test") _ eq_refl) eq_refl)).
  - exact (proj2 (proj2 (scheme_defaulting RefURL.parse RefFacts.ref_laws
                           (descriptor "socks5://proxy.test:1080") _ eq_refl)
                    eq_refl)).
Defined.

(** C4 as stated fails: the port setter ignores a number above 65535, and
    the port the address carried stays. *)
Lemma explicit_port_counterexample :
  let d := Samples.with_port (descriptor "https://proxy.test:8080") 70000 in
  port d = Some 70000%Z
  /\ normalizedProxy RefURL.parse d = Normal (https_url (Some 8080%N))
  /\ URL.effective_port (https_url (Some 8080%N)) <> Some 70000%N.
Proof. repeat split; discriminate. Qed.

(** C4 as amended, for port 3128 against an address with port 8080. *)
Lemma explicit_port_witness :
  let d := Samples.with_port (descriptor "https://proxy.test:8080") 3128 in
  (port d = Some 3128%Z /\ (1 <= 3128 <= 65535)%Z
   /\ normalizedProxy RefURL.parse d = Normal (https_url (Some 3128%N))
   /\ URL.can_have_userinfo (https_url (Some 3128%N)) = true)
  /\ URL.port (https_url (Some 3128%N)) = Some 3128%N
  /\ URL.effective_port (https_url (Some 3128%N)) = Some 3128%N.
Proof.
  split; [repeat split; lia|].
  apply (explicit_port_overrides RefURL.parse
           (Samples.with_port (descriptor "https://proxy.test:8080") 3128)
           3128%Z); [reflexivity | lia | reflexivity | reflexivity].
Defined.



(** Read as text, the stored fields of that sample are the credentials of
    the descriptor. *)
Example credentials_decoded :
  URL.percent_decode (URL.username auth_url) = "a@b"
  /\ URL.percent_decode (URL.password auth_url) = "p:q".
Proof. split; reflexivity. Qed.

(** C6 for [socks5://proxy.test:1080], which the sample constructor
    takes, and for [socksx://proxy.test:1080], which it refuses. *)
Lemma socks_single_agent_witness :
  let d := descriptor "socks5://proxy.test:1080" in
  let parsed :=
    URL.mk "socks5" "" "" (Some "proxy.test") (Some 1080%N) "" in
  let sa := mkAgent 0 SocksProxyAgent "socks5://proxy.test:1080" in
  let d' := descriptor "socksx://proxy.test:1080" in
  let parsed' :=
    URL.mk "socksx" "" "" (Some "proxy.test") (Some 1080%N) "" in
  ((normalizedProxy RefURL.parse d = Normal parsed
    /\ Str.startsWith (URL.protocol parsed) "socks" = true)
   /\ (forall agents h',
          getAgentForProxy RefURL.parse socksAgent d 0 = (Normal agents, h') ->
          httpAgent agents = sa /\ httpsAgent agents = sa
          /\ agent_ref (httpAgent agents) = agent_ref (httpsAgent agents)
          /\ h' = 1)
   /\ getAgentForProxy RefURL.parse socksAgent d 0
      = (Normal (mkAgentPair sa sa), 1))
  /\ ((normalizedProxy RefURL.parse d' = Normal parsed'
       /\ Str.startsWith (URL.protocol parsed') "socks" = true)
      /\ getAgentForProxy RefURL.parse socksAgent d' 0
         = (Throw (AgentError "TypeError"
                     "A socks protocol must be specified! Got: socksx:"), 0)).
Proof.
  split; (split; [split; reflexivity|]).
  - exact (socks_single_agent RefURL.parse socksAgent
             (descriptor "socks5://proxy.test:1080") _ 0 eq_refl eq_refl).
  - exact (proj2 (socks_single_agent RefURL.parse socksAgent
                    (descriptor "socksx://proxy.test:1080") _ 0
                    eq_refl eq_refl)).
Defined.

(** C7 as stated fails for [https:]: the two agents are two objects. *)
Lemma https_agents_counterexample :
  let d := descriptor "https://proxy.test:8080" in
  normalizedProxy RefURL.parse d = Normal (https_url (Some 8080%N))
  /\ URL.protocol (https_url (Some 8080%N)) = "https:"
  /\ exists agents,
      getAgentForProxy RefURL.parse socksAgent d 0 = (Normal agents, 2)
      /\ httpAgent agents <> httpsAgent agents.
Proof.
  split; [reflexivity|]. split; [reflexivity|].
  eexists. split; [reflexivity|]. discriminate.
Qed.

(** C7 as amended, for an [https:] and an [http:] proxy. *)
Lemma http_and_https_agents_witness :
  (normalizedProxy RefURL.parse (descriptor "https://proxy.test:8080")
   = Normal (https_url (Some 8080%N))
   /\ URL.protocol (https_url (Some 8080%N)) = "https:"
   /\ exists agents,
       getAgentForProxy RefURL.parse socksAgent (descriptor "https://proxy.test:8080") 0
       = (Normal agents, 2)
       /\ httpAgent agents
          = mkAgent 0 HttpsProxyAgent "https://proxy.test:8080/"
       /\ httpsAgent agents
          = mkAgent 1 HttpsProxyAgent "https://proxy.test:8080/"
       /\ agent_ref (httpAgent agents) <> agent_ref (httpsAgent agents))
  /\ (normalizedProxy RefURL.parse (descriptor "http://proxy.test:3128")
      = Normal (URL.mk "http" "" "" (Some "proxy.test") (Some 3128%N) "/")
      /\ exists agents,
          getAgentForProxy RefURL.parse socksAgent (descriptor "http://proxy.test:3128")
            0
          = (Normal agents, 2)
          /\ httpAgent agents
             = mkAgent 0 HttpProxyAgent "http://proxy.test:3128/"
          /\ httpsAgent agents
             = mkAgent 1 HttpsProxyAgent "http://proxy.test:3128/"
          /\ agent_ref (httpAgent agents) <> agent_ref (httpsAgent agents)).
Proof.
  split; (split; [reflexivity|]).
  - split; [reflexivity|].
    exact (proj1 (http_and_https_agents RefURL.parse socksAgent
                    (descriptor "https://proxy.test:8080") _ 0 eq_refl)
             eq_refl).
  - exact (proj2 (http_and_https_agents RefURL.parse socksAgent
                    (descriptor "http://proxy.test:3128") _ 0 eq_refl)
             eq_refl).
Defined.

(** C8 for [ftp://proxy.test]. *)
Lemma unsupported_protocol_witness :
  let d := descriptor "ftp://proxy.test" in
  let parsed := URL.mk "ftp" "" "" (Some "proxy.test") None "/" in
  (normalizedProxy RefURL.parse d = Normal parsed
   /\ URL.protocol parsed <> "http:" /\ URL.protocol parsed <> "https:"
   /\ Str.startsWith (URL.protocol parsed) "socks" = false)
  /\ getAgentForProxy RefURL.parse socksAgent d 0
     = (Throw (Error "Unsupported proxy protocol: ftp:"), 0)
  /\ (JS.truthy (url d) && proxyAxios d = true ->
      AxiosClient.constructor RefURL.parse socksAgent d 0
      = (Throw (Error "Unsupported proxy protocol: ftp:"), 1)).
Proof.
  split; [repeat split; discriminate|].
  apply (unsupported_protocol RefURL.parse socksAgent (descriptor "ftp://proxy.test")
           _ 0 eq_refl); [discriminate | discriminate | reflexivity].
Defined.

(** C2 for a descriptor with proxying on, which gives the sample
    client. *)
Lemma constructor_binds_agents_witness :
  let d := descriptor "https://proxy.test:8080" in
  AxiosClient.constructor RefURL.parse socksAgent d 0 = (Normal proxied, 3)
  /\ defaults_proxy (instance proxied) = ProxyFalse
  /\ account proxied = d
  /\ (JS.truthy (url d) && proxyAxios d = true ->
      exists agents,
        getAgentForProxy RefURL.parse socksAgent d 1 = (Normal agents, 3)
        /\ defaults_httpAgent (instance proxied) = Some (httpAgent agents)
        /\ defaults_httpsAgent (instance proxied)
           = Some (httpsAgent agents))
  /\ (JS.truthy (url d) && proxyAxios d = false ->
      defaults_httpAgent (instance proxied) = None
      /\ defaults_httpsAgent (instance proxied) = None).
Proof.
  split; [reflexivity|].
  exact (constructor_binds_agents RefURL.parse socksAgent
           (descriptor "https://proxy.test:8080") 0 3 proxied eq_refl).
Defined.

(** An address that does not parse: the constructor throws. *)
Example constructor_invalid_url :
  AxiosClient.constructor RefURL.parse socksAgent (descriptor "proxy test") 0
  = (Throw (TypeError_InvalidURL "https://proxy test"), 1).
Proof. reflexivity. Qed.

(** The default for a bare host, with a port: an [https:] proxy. *)
Example bare_host_with_port :
  getAgentForProxy RefURL.parse socksAgent
    (Samples.with_port (descriptor "proxy.test") 8080) 0
  = (Normal (mkAgentPair
               (mkAgent 0 HttpsProxyAgent "https://proxy.test:8080/")
               (mkAgent 1 HttpsProxyAgent "https://proxy.test:8080/")), 2).
Proof. reflexivity. Qed.

(** The default port is left out of the URL, and is the port in force. *)
Example default_port_elided :
  normalizedProxy RefURL.parse
    (Samples.with_port (descriptor "https://proxy.test:8080") 443)
  = Normal (https_url None)
  /\ URL.effective_port (https_url None) = Some 443%N.
Proof. split; reflexivity. Qed.

(** With proxying off the client has no agents. *)
Example constructor_disabled :
  AxiosClient.constructor RefURL.parse socksAgent
    (disabled (descriptor "https://proxy.test:8080")) 0
  = (Normal (AxiosClient.mk (bypassInstance 0)
               (disabled (descriptor "https://proxy.test:8080"))), 1).
Proof. reflexivity. Qed.

(** An empty address with proxying on never reaches the resolver. *)
Example constructor_empty_address :
  AxiosClient.constructor RefURL.parse socksAgent (descriptor "") 0
  = (Normal (AxiosClient.mk (bypassInstance 0) (descriptor "")), 1).
Proof. reflexivity. Qed.

(** C1 for a refused connection and for a message that quotes a proxy
    error, where the retry's answer is the result, and for a 404, which
    comes back as it is. *)
Lemma fallback_once_witness :
  (deadProxy refused (instance proxied) "GET /" 0 = (Throw refused, 1)
   /\ Spec.NetworkError refused
   /\ request (deadProxy refused) proxied "GET /" false world0
      = (Normal "200 GET /",
         mkWorld 4 2
           [(instance proxied, "GET /"); (bypassInstance 3, "GET /")]))
  /\ (deadProxy quoted_proxy_error (instance proxied) "GET /" 0
      = (Throw quoted_proxy_error, 1)
      /\ Spec.ProxyLikeError quoted_proxy_error
      /\ request (deadProxy quoted_proxy_error) proxied "GET /" false world0
         = (Normal "200 GET /",
            mkWorld 4 2
              [(instance proxied, "GET /"); (bypassInstance 3, "GET /")]))
  /\ (deadProxy bad_status (instance proxied) "GET /" 0
      = (Throw bad_status, 1)
      /\ ~ Spec.NetworkError bad_status
      /\ ~ Spec.ProxyLikeError bad_status
      /\ request (deadProxy bad_status) proxied "GET /" false world0
         = (Throw bad_status, mkWorld 3 1 [(instance proxied, "GET /")])).
Proof.
  assert (Hnet : Spec.NetworkError refused).
  { exists (mkError (Some "ECONNREFUSED") None
              (Some "connect ECONNREFUSED 10.0.0.1:8080")), "ECONNREFUSED".
    split; [reflexivity|]. split; left; reflexivity. }
  assert (Hproxy : Spec.ProxyLikeError quoted_proxy_error).
  { exists (mkError None None (Some "upstream said: PROXY ERROR (retry)")),
      "upstream said: PROXY ERROR (retry)", "proxy",
      "upstream said: ", "PROXY", " ERROR (retry)".
    repeat split. left; reflexivity. }
  assert (Hn : ~ Spec.NetworkError bad_status).
  { intros E. apply ClassifyFacts.NetworkError_iff in E. discriminate E. }
  assert (Hp : ~ Spec.ProxyLikeError bad_status).
  { intros E. apply ClassifyFacts.ProxyLikeError_iff in E. discriminate E. }
  split; [|split].
  - split; [reflexivity|]. split; [exact Hnet|].
    exact (proj1 (fallback_once string string nat (deadProxy refused) proxied
                    "GET /" world0 refused 1 eq_refl) (or_introl Hnet)).
  - split; [reflexivity|]. split; [exact Hproxy|].
    exact (proj1 (fallback_once string string nat
                    (deadProxy quoted_proxy_error) proxied
                    "GET /" world0 quoted_proxy_error 1 eq_refl)
             (or_intror Hproxy)).
  - split; [reflexivity|]. split; [exact Hn|]. split; [exact Hp|].
    exact (proj2 (fallback_once string string nat (deadProxy bad_status)
                    proxied "GET /" world0 bad_status 1 eq_refl) Hn Hp).
Defined.

(** An error that is neither network- nor proxy-like comes back as it
    is, after one request. *)
Example other_error_propagates :
  isNetErr bad_status || looksLikeProxyIssue bad_status = false
  /\ request (deadProxy bad_status) proxied "GET /" false world0
     = (Throw bad_status, mkWorld 3 1 [(instance proxied, "GET /")]).
Proof. split; reflexivity. Qed.

(** A failing retry is returned as it is: no second fallback. *)
Example failed_retry_is_final :
  request (allDown refused) proxied "GET /" false world0
  = (Throw refused,
     mkWorld 4 2 [(instance proxied, "GET /"); (bypassInstance 3, "GET /")]).
Proof. reflexivity. Qed.

(** C9 on the sample client: its agents see nothing of the request. *)
Example bypass_sample :
  request (deadProxy refused) proxied "GET /" true world0
  = (Normal "200 GET /", mkWorld 4 1 [(bypassInstance 3, "GET /")]).
Proof. reflexivity. Qed.

(** C10 as stated fails: a recognised code under [cause.code] is not
    looked at when the error has a code of its own, and the error comes
    back without a retry. *)
Lemma cause_code_counterexample :
  (exists e k,
      wrapped_refused = Some e /\ cause e = Some k
      /\ cause_code k = Some "ECONNREFUSED"
      /\ In "ECONNREFUSED" networkCodes)
  /\ isNetErr wrapped_refused = false
  /\ request (deadProxy wrapped_refused) proxied "GET /" false world0
     = (Throw wrapped_refused, mkWorld 3 1 [(instance proxied, "GET /")]).
Proof.
  split; [|split; reflexivity].
  do 2 eexists. repeat split. now left.
Qed.

(** C10 as amended, for a code found under [cause.code] only. *)
Lemma cause_code_fallback_witness :
  (In "ECONNRESET" networkCodes
   /\ deadProxy nested_reset (instance proxied) "GET /" 0
      = (Throw (Some reset_error), 1)
   /\ JS.truthy (code reset_error) = false
   /\ exists k, cause reset_error = Some k
                /\ cause_code k = Some "ECONNRESET")
  /\ isNetErr (Some reset_error) = true
  /\ request (deadProxy nested_reset) proxied "GET /" false world0
     = (Normal "200 GET /",
        mkWorld 4 2
          [(instance proxied, "GET /"); (bypassInstance 3, "GET /")]).
Proof.
  split.
  - split; [right; right; now left|]. split; [reflexivity|].
    split; [reflexivity|]. eexists. split; reflexivity.
  - apply (cause_code_fallback string string nat (deadProxy nested_reset)
             proxied "GET /" world0 reset_error 1 "ECONNRESET").
    + right. right. now left.
    + reflexivity.
    + right. split; [reflexivity|]. eexists. split; reflexivity.
Defined.

End Checks.

(** * Further properties of the class *)

(** ** The address pattern and the scheme default *)

Module PatternFacts.

Import StrFacts AxiosClient.

Lemma String_or_empty_some (s : string) : JS.String_or_empty (Some s) = s.
Proof. now destruct s. Qed.

Lemma hasSchemePrefix_app (a r : string) :
  URL.is_scheme a = true -> hasSchemePrefix (a ++ "://" ++ r) = true.
Proof.
  destruct a as [|c a]; [discriminate|]. cbn [URL.is_scheme]. intros H.
  apply andb_true_iff in H as [Hc Ha].
  cbn [append hasSchemePrefix]. rewrite Hc. cbn [andb].
  now rewrite (span_app URL.is_scheme_char a (String ":" _) Ha eq_refl).
Qed.

(** X1.  The pattern of line 39 accepts exactly the addresses made of a
    scheme (a letter, then letters, digits, [+], [.] and [-]), the three
    characters [://] and any rest. *)
Theorem hasSchemePrefix_iff (url : string) :
  hasSchemePrefix url = true
  <-> exists a r, URL.is_scheme a = true /\ url = a ++ "://" ++ r.
Proof.
  split.
  - intros H.
    destruct (ResolverFacts.hasSchemePrefix_split url H) as [Hs [r Hr]].
    now exists (explicitScheme url), r.
  - intros (a & r & Ha & ->). now apply hasSchemePrefix_app.
Qed.

(** X2.  Whatever the descriptor's address, the string handed to
    [new URL] carries a scheme, and putting it through lines 35-41 again
    changes nothing. *)
Theorem withScheme_idempotent (address : option string) :
  hasSchemePrefix (withScheme address) = true
  /\ withScheme (Some (withScheme address)) = withScheme address.
Proof.
  assert (H : hasSchemePrefix (withScheme address) = true).
  { unfold withScheme.
    destruct (hasSchemePrefix (JS.String_or_empty address)) eqn:E;
      cbn [negb]; [exact E|].
    exact (hasSchemePrefix_app "https" _ eq_refl). }
  split; [exact H|].
  unfold withScheme at 1. rewrite String_or_empty_some, H. reflexivity.
Qed.

End PatternFacts.

(** ** The resolver and the constructor *)

Module AgentFacts.

Import StrFacts AxiosClient ResolverFacts.

Lemma set_port_tail u v : URL.tail (URL.set_port u v) = URL.tail u.
Proof.
  unfold URL.set_port.
  repeat match goal with
         | |- context [if ?b then _ else _] => destruct b
         | |- context [let (_, _) := ?p in _] => destruct p
         end; reflexivity.
Qed.

Lemma set_username_tail u v : URL.tail (URL.set_username u v) = URL.tail u.
Proof. unfold URL.set_username. now destruct (URL.can_have_userinfo u). Qed.

Lemma set_password_tail u v : URL.tail (URL.set_password u v) = URL.tail u.
Proof. unfold URL.set_password. now destruct (URL.can_have_userinfo u). Qed.

Lemma assigned_host u0 u : URL.assigned u0 u -> URL.host u = URL.host u0.
Proof.
  induction 1; rewrite ?set_port_host, ?set_username_host,
    ?set_password_host; auto.
Qed.

Lemma assigned_tail u0 u : URL.assigned u0 u -> URL.tail u = URL.tail u0.
Proof.
  induction 1; rewrite ?set_port_tail, ?set_username_tail,
    ?set_password_tail; auto.
Qed.

Lemma href_starts_with_protocol u :
  Str.startsWith (URL.href u) (URL.protocol u) = true.
Proof.
  unfold URL.href, URL.protocol. rewrite <- app_assoc.
  apply startsWith_app.
Qed.

(** The three ways [agentsFor] returns a pair. *)
Lemma agentsFor_inv socksAgentError parsed h agents h' :
  agentsFor socksAgentError parsed h = (Normal agents, h') ->
  (URL.protocol parsed = "http:"
   /\ agents = mkAgentPair (mkAgent h HttpProxyAgent (URL.href parsed))
                 (mkAgent (S h) HttpsProxyAgent (URL.href parsed))
   /\ h' = S (S h))
  \/ (URL.protocol parsed = "https:"
      /\ agents = mkAgentPair (mkAgent h HttpsProxyAgent (URL.href parsed))
                    (mkAgent (S h) HttpsProxyAgent (URL.href parsed))
      /\ h' = S (S h))
  \/ (Str.startsWith (URL.protocol parsed) "socks" = true
      /\ URL.protocol parsed <> "http:"
      /\ agents = mkAgentPair (mkAgent h SocksProxyAgent (URL.href parsed))
                    (mkAgent h SocksProxyAgent (URL.href parsed))
      /\ h' = S h).
Proof.
  unfold agentsFor.
  destruct (String.eqb_spec (URL.protocol parsed) "http:") as [E1|N1].
  - intros [= <- <-]. left. auto.
  - destruct (String.eqb_spec (URL.protocol parsed) "https:") as [E2|N2].
    + intros [= <- <-]. right. left. auto.
    + destruct (Str.startsWith (URL.protocol parsed) "socks") eqn:Es;
        [|discriminate].
      unfold bind, new_checked_agent.
      destruct (socksAgentError (URL.href parsed)); [discriminate|].
      intros [= <- <-]. right. right. auto.
Qed.

Section WithParser.

Variable parse : string -> option URL.t.
Variable socksAgentError : string -> option Exn.

Lemma getAgentForProxy_inv d h agents h' :
  getAgentForProxy parse socksAgentError d h = (Normal agents, h') ->
  exists parsed,
    normalizedProxy parse d = Normal parsed
    /\ agentsFor socksAgentError parsed h = (Normal agents, h').
Proof.
  unfold getAgentForProxy.
  destruct (normalizedProxy parse d) as [parsed|e]; [|discriminate].
  intros H. now exists parsed.
Qed.

(** A resolver that throws has allocated nothing. *)
Lemma getAgentForProxy_throw_heap d h e h' :
  getAgentForProxy parse socksAgentError d h = (Throw e, h') -> h' = h.
Proof.
  unfold getAgentForProxy, agentsFor, bind, new_checked_agent.
  destruct (normalizedProxy parse d) as [parsed|e0]; [|now intros [= _ <-]].
  repeat match goal with
         | |- context [if ?b then _ else _] => destruct b
         end; try discriminate;
    try destruct (socksAgentError (URL.href parsed));
    try discriminate; now intros [= _ <-].
Qed.

(** X3.  Whenever the resolver returns a pair, both agents were made from
    one string, the serialised resolved URL, which starts with the
    protocol the agents were chosen by; that protocol is [http:], [https:]
    or starts with [socks]; the agent for plain targets is an
    [HttpProxyAgent] exactly for [http:]; and the agent for secure targets
    is never an [HttpProxyAgent]. *)
Theorem resolved_pair_is_consistent
  (d : AccountProxy) (h h' : Heap) (agents : AgentPair) :
  getAgentForProxy parse socksAgentError d h = (Normal agents, h') ->
  exists parsed,
    normalizedProxy parse d = Normal parsed
    /\ agent_proxy (httpAgent agents) = URL.href parsed
    /\ agent_proxy (httpsAgent agents) = URL.href parsed
    /\ Str.startsWith (URL.href parsed) (URL.protocol parsed) = true
    /\ (URL.protocol parsed = "http:" \/ URL.protocol parsed = "https:"
        \/ Str.startsWith (URL.protocol parsed) "socks" = true)
    /\ (agent_class (httpAgent agents) = HttpProxyAgent
        <-> URL.protocol parsed = "http:")
    /\ agent_class (httpsAgent agents) <> HttpProxyAgent.
Proof.
  intros H.
  destruct (getAgentForProxy_inv d h agents h' H) as (parsed & Hn & Ha).
  exists parsed. split; [exact Hn|].
  pose proof (href_starts_with_protocol parsed) as Hs.
  destruct (agentsFor_inv socksAgentError parsed h agents h' Ha)
    as [(E & -> & _) | [(E & -> & _) | (E & N & -> & _)]];
    cbn [httpAgent httpsAgent agent_proxy agent_class];
    repeat split; auto; try discriminate; try (intros _; exact E).
  - rewrite E. discriminate.
  - intros E'. now elim N.
Qed.

(** X4.  The objects a successful constructor call makes are fresh and
    distinct: the instance takes the first free reference, the agents
    bound to it take later ones, and at most three references are used. *)
Theorem constructed_objects_are_fresh
  (d : AccountProxy) (h h' : Heap) (c : AxiosClient.t) :
  AxiosClient.constructor parse socksAgentError d h = (Normal c, h') ->
  instance_ref (instance c) = h
  /\ h < h' <= h + 3
  /\ (forall a,
         defaults_httpAgent (instance c) = Some a
         \/ defaults_httpsAgent (instance c) = Some a ->
         h < agent_ref a < h').
Proof.
  unfold AxiosClient.constructor, bind, axios_create, ret.
  destruct (JS.truthy (url d) && proxyAxios d).
  - destruct (getAgentForProxy parse socksAgentError d (S h)) as [[agents|e] h1] eqn:Hg;
      [|discriminate].
    intros [= <- <-].
    destruct (getAgentForProxy_inv d (S h) agents h1 Hg) as (parsed & _ & Ha).
    cbn [instance instance_ref set_defaults_httpsAgent set_defaults_httpAgent
           set_defaults_proxy defaults_httpAgent defaults_httpsAgent].
    destruct (agentsFor_inv socksAgentError parsed (S h) agents h1 Ha)
      as [(_ & -> & ->) | [(_ & -> & ->) | (_ & _ & -> & ->)]];
      cbn [httpAgent httpsAgent]; (split; [reflexivity|]); (split; [lia|]);
      intros a [[= <-] | [= <-]]; cbn [agent_ref]; lia.
  - intros [= <- <-]. cbn. split; [reflexivity|]. split; [lia|].
    intros a [E | E]; discriminate.
Qed.

(** X5.  The constructor throws exactly when the descriptor has a
    non-empty address and the proxy flag and the resolver throws, and then
    with the resolver's error and only the instance allocated.  With the
    flag off or the address empty it never throws and never parses the
    address: the client has a plain instance with proxy handling off. *)
Theorem constructor_throws_iff (d : AccountProxy) (h : Heap) :
  (forall e h',
      AxiosClient.constructor parse socksAgentError d h = (Throw e, h')
      <-> JS.truthy (url d) && proxyAxios d = true
          /\ getAgentForProxy parse socksAgentError d (S h) = (Throw e, h')
          /\ h' = S h)
  /\ (JS.truthy (url d) && proxyAxios d = false ->
      AxiosClient.constructor parse socksAgentError d h
      = (Normal (AxiosClient.mk (bypassInstance h) d), S h)).
Proof.
  unfold AxiosClient.constructor, bind, axios_create, ret.
  destruct (JS.truthy (url d) && proxyAxios d).
  - split; [|discriminate]. intros e h'.
    destruct (getAgentForProxy parse socksAgentError d (S h)) as [[agents|e0] h1] eqn:Hg.
    + split; [discriminate | intros (_ & [=] & _)].
    + pose proof (getAgentForProxy_throw_heap d (S h) e0 h1 Hg) as ->.
      split.
      * intros [= <- <-]. auto.
      * intros (_ & [= <-] & ->). reflexivity.
  - split; [|reflexivity]. intros e h'. split; [discriminate|].
    intros ([=] & _).
Qed.

(** X6.  An address that does not parse is fatal: the resolver throws the
    [TypeError] of [new URL] for the string it tried, allocating nothing,
    and a constructor call with the proxy flag and a non-empty address ends
    with the same error. *)
Theorem invalid_url_is_fatal (d : AccountProxy) (h : Heap) :
  parse (withScheme (url d)) = None ->
  let err := TypeError_InvalidURL (withScheme (url d)) in
  getAgentForProxy parse socksAgentError d h = (Throw err, h)
  /\ (JS.truthy (url d) && proxyAxios d = true ->
      AxiosClient.constructor parse socksAgentError d h = (Throw err, S h)).
Proof.
  intros H err.
  assert (E : forall h0, getAgentForProxy parse socksAgentError d h0 = (Throw err, h0)).
  { intros h0. unfold getAgentForProxy, normalizedProxy. now rewrite H. }
  split; [apply E|]. intros He.
  unfold AxiosClient.constructor, bind, axios_create. rewrite He.
  now rewrite E.
Qed.

End WithParser.

End AgentFacts.

(** ** The port and credential assignments *)

Module AssignFacts.

Import StrFacts AxiosClient ResolverFacts.

(** A number above 65535 leaves the URL as it was. *)
Lemma set_port_decimal_large u n :
  (65535 < n)%N -> URL.set_port u (URL.decimal n) = u.
Proof.
  intros Hn. unfold URL.set_port.
  destruct (negb (URL.can_have_userinfo u)); [reflexivity|].
  rewrite URLFacts.decimal_nonempty.
  rewrite filter_all
    by (eapply all_impl;
        [apply CharFacts.digit_no_tab | apply URLFacts.decimal_digits]).
  rewrite (span_all _ _ (URLFacts.decimal_digits n)).
  rewrite URLFacts.decimal_nonempty, URLFacts.digits_value_decimal.
  destruct (N.ltb_spec 65535 n); [reflexivity | lia].
Qed.

(** So does a value that starts with a minus sign. *)
Lemma set_port_minus u v : URL.set_port u (String "-" v) = u.
Proof.
  unfold URL.set_port.
  destruct (negb (URL.can_have_userinfo u)); [reflexivity|].
  cbn [String.eqb Str.filter]. reflexivity.
Qed.

Lemma String_of_num_neg (p : Z) :
  (p < 0)%Z -> exists v, JS.String_of_num p = String "-" v.
Proof.
  destruct p as [|q|q]; try lia. intros _. eexists. reflexivity.
Qed.

Lemma safe_excludes (c : ascii) (s : string) :
  URL.in_userinfo_set c = true ->
  URL.userinfo_safe s = true -> Str.excludes c s = true.
Proof.
  intros Hc. apply all_impl. intros x Hx. unfold Str.differs.
  destruct (Ascii.eqb_spec x c) as [->|]; [|reflexivity].
  now rewrite Hc in Hx.
Qed.

Lemma assign_scheme d u :
  URL.scheme (assignAuth d (assignPort d u)) = URL.scheme u.
Proof.
  rewrite assignAuth_scheme. unfold assignPort.
  destruct (port d) as [p|]; [|reflexivity].
  destruct (JS.truthy_num (Some p)); [|reflexivity].
  apply URLFacts.set_port_scheme.
Qed.

Section WithParser.

Variable parse : string -> option URL.t.
Variable socksAgentError : string -> option Exn.

(** X7.  A port that is zero, negative or above 65535 (within the safe
    integers) has no effect: the resolved URL keeps the port of the
    address. *)
Theorem out_of_range_port_is_ignored
  (d : AccountProxy) (p : Z) (parsed : URL.t) :
  port d = Some p ->
  (-9007199254740991 <= p <= 0 \/ 65535 < p <= 9007199254740991)%Z ->
  normalizedProxy parse d = Normal parsed ->
  exists u0,
    parse (withScheme (url d)) = Some u0
    /\ URL.port parsed = URL.port u0.
Proof.
  intros Hport Hp H.
  destruct (normalizedProxy_inv parse d parsed H) as (u0 & Hu & -> & _).
  exists u0. split; [exact Hu|]. rewrite assignAuth_port.
  unfold assignPort. rewrite Hport.
  destruct (Z.eqb_spec p 0) as [->|Hne]; [reflexivity|].
  replace (JS.truthy_num (Some p)) with true
    by (symmetry; apply negb_true_iff, Z.eqb_neq; exact Hne).
  destruct Hp as [Hp|Hp].
  - destruct (String_of_num_neg p ltac:(lia)) as [v ->].
    now rewrite set_port_minus.
  - rewrite URLFacts.String_of_num_pos by lia.
    rewrite set_port_decimal_large by lia. reflexivity.
Qed.

(** X8.  The assignments of lines 46-53 touch the port and the credentials
    only: scheme, host and path of the resolved URL are those of the parsed
    address. *)
Theorem assignments_keep_the_address (d : AccountProxy) (parsed : URL.t) :
  normalizedProxy parse d = Normal parsed ->
  exists u0,
    parse (withScheme (url d)) = Some u0
    /\ URL.scheme parsed = URL.scheme u0
    /\ URL.host parsed = URL.host u0
    /\ URL.tail parsed = URL.tail u0.
Proof.
  intros H.
  destruct (normalizedProxy_inv parse d parsed H) as (u0 & Hu & _ & Ha).
  exists u0.
  auto using assigned_scheme, AgentFacts.assigned_host,
    AgentFacts.assigned_tail.
Qed.

(** X9.  Port and credentials never decide which branch of lines 66-81
    is taken: two descriptors with the same address both fail to parse,
    with the same error, or resolve to URLs of one protocol, and pairs
    returned for both have the same classes and references.  When the
    protocol does not start with [socks], the outcome is the same as well:
    both throw the same error or both return a pair. *)
Theorem outcome_depends_on_address (d d' : AccountProxy) (h : Heap) :
  url d = url d' ->
  match normalizedProxy parse d, normalizedProxy parse d' with
  | Throw e, Throw e' => e = e'
  | Normal parsed, Normal parsed' =>
      URL.protocol parsed = URL.protocol parsed'
      /\ (forall a k a' k',
             getAgentForProxy parse socksAgentError d h = (Normal a, k) ->
             getAgentForProxy parse socksAgentError d' h = (Normal a', k') ->
             agent_class (httpAgent a) = agent_class (httpAgent a')
             /\ agent_class (httpsAgent a) = agent_class (httpsAgent a')
             /\ agent_ref (httpAgent a) = agent_ref (httpAgent a')
             /\ agent_ref (httpsAgent a) = agent_ref (httpsAgent a')
             /\ k = k')
      /\ (Str.startsWith (URL.protocol parsed) "socks" = false ->
          match getAgentForProxy parse socksAgentError d h,
                getAgentForProxy parse socksAgentError d' h with
          | (Throw e, k), (Throw e', k') => e = e' /\ k = k'
          | (Normal _, _), (Normal _, _) => True
          | _, _ => False
          end)
  | _, _ => False
  end.
Proof.
  intros Hu. unfold getAgentForProxy.
  rewrite !normalizedProxy_eq, <- Hu.
  destruct (parse (withScheme (url d))) as [u0|]; [|reflexivity].
  unfold agentsFor, URL.protocol. rewrite !assign_scheme.
  split; [reflexivity|].
  unfold bind, new_checked_agent, new_agent, ret.
  destruct (URL.scheme u0 ++ ":" =? "http:");
    [split; [intros a k a' k' [= <- <-] [= <- <-]; cbn; auto
            | intros _; exact I]|].
  destruct (URL.scheme u0 ++ ":" =? "https:");
    [split; [intros a k a' k' [= <- <-] [= <- <-]; cbn; auto
            | intros _; exact I]|].
  destruct (Str.startsWith (URL.scheme u0 ++ ":") "socks").
  - split; [|discriminate]. intros a k a' k'.
    destruct (socksAgentError _); [discriminate|].
    destruct (socksAgentError _); [discriminate|].
    intros [= <- <-] [= <- <-]. cbn. auto.
  - split; [discriminate|]. intros _. now split.
Qed.

(** X10.  Credentials written into a URL that has a host cannot break its
    structure: the user name and password fields of the resolved URL hold
    none of the characters that delimit URL components or need escaping,
    such as [@], [:], [/], [?], [#] and the space. *)
Theorem injected_credentials_are_safe
  (d : AccountProxy) (parsed : URL.t) (un : string) (c : ascii) :
  normalizedProxy parse d = Normal parsed ->
  username d = Some un -> un <> "" ->
  URL.can_have_userinfo parsed = true ->
  URL.in_userinfo_set c = true ->
  Str.excludes c (URL.username parsed) = true
  /\ Str.excludes c (URL.password parsed) = true.
Proof.
  intros H Hun Hne Hc Hset.
  destruct (normalizedProxy_inv parse d parsed H) as (u0 & _ & E & Ha).
  assert (Hc1 : URL.can_have_userinfo (assignPort d u0) = true).
  { rewrite <- Hc, (assigned_can_have _ _ Ha). unfold assignPort.
    destruct (port d) as [q|]; [|reflexivity].
    destruct (JS.truthy_num (Some q)); [|reflexivity].
    apply assigned_can_have. repeat constructor. }
  assert (E' : parsed
               = URL.set_password
                   (URL.set_username (assignPort d u0) un)
                   (JS.String_or_empty (password d))).
  { rewrite E. unfold assignAuth.
    now rewrite Hun, (truthy_nonempty un Hne), (length_nonempty un Hne). }
  destruct (set_credentials (assignPort d u0) un
              (JS.String_or_empty (password d)) Hc1) as [Eu Ep].
  rewrite <- E' in Eu, Ep. rewrite Eu, Ep.
  split; apply safe_excludes; auto using URLFacts.userinfo_encode_safe.
Qed.


Hypothesis parse_laws : URL.ParserLaws parse.

(** X11.  An address without a scheme never ends in the unsupported
    protocol error: the resolver either throws the [TypeError] of
    [new URL], or returns two [HttpsProxyAgent]s made from one URL. *)
Theorem bare_address_outcome (d : AccountProxy) (h : Heap) :
  hasSchemePrefix (JS.String_or_empty (url d)) = false ->
  getAgentForProxy parse socksAgentError d h
  = (Throw (TypeError_InvalidURL (withScheme (url d))), h)
  \/ exists proxyUrl,
      getAgentForProxy parse socksAgentError d h
      = (Normal (mkAgentPair (mkAgent h HttpsProxyAgent proxyUrl)
                   (mkAgent (S h) HttpsProxyAgent proxyUrl)),
         S (S h)).
Proof.
  intros Hs. unfold getAgentForProxy. rewrite normalizedProxy_eq.
  destruct (parse (withScheme (url d))) as [u0|] eqn:Hp; [|now left].
  right. exists (URL.href (assignAuth d (assignPort d u0))).
  assert (E : URL.scheme u0 = "https").
  { unfold withScheme in Hp. rewrite Hs in Hp. cbn [negb] in Hp.
    exact (URL.parse_scheme parse parse_laws "https" _ u0 eq_refl Hp). }
  unfold agentsFor, URL.protocol. rewrite assign_scheme, E. reflexivity.
Qed.

End WithParser.

End AssignFacts.

(** ** Classification and requests *)

Module RequestFacts.

Import AxiosClient.

(** X12.  An error with a non-empty code of its own that is not one of the
    four is not network-related, whatever code its cause carries. *)
Theorem own_code_hides_cause (e : ErrorObject) (c : string) :
  code e = Some c -> c <> "" -> ~ In c networkCodes ->
  isNetErr (Some e) = false.
Proof.
  intros Hc Hne Hnot.
  destruct (isNetErr (Some e)) eqn:E; [|reflexivity].
  apply ClassifyFacts.isNetErr_iff in E as (k & Hin & Hk).
  unfold errorCode, JS.or_else in Hk. rewrite Hc in Hk.
  rewrite (ResolverFacts.truthy_nonempty c Hne) in Hk.
  injection Hk as ->. contradiction.
Qed.

(** X13.  The message test sees through letter case and surrounding text:
    a message that contains, letter case aside, a message that looks like
    a proxy issue looks like one too. *)
Theorem proxy_issue_in_longer_message (e e' : Thrown) (a b : string) :
  looksLikeProxyIssue e = true ->
  Str.lower (messageOf e') = a ++ Str.lower (messageOf e) ++ b ->
  looksLikeProxyIssue e' = true.
Proof.
  intros H Hm.
  apply ClassifyFacts.looksLikeProxyIssue_iff in H
    as (word & x & y & Hin & Hx).
  apply ClassifyFacts.looksLikeProxyIssue_iff.
  exists word, (a ++ x), (y ++ b). split; [exact Hin|].
  rewrite Hm, Hx. now rewrite !StrFacts.app_assoc.
Qed.

Section WithTransport.

Variables Config Response Net : Type.
Variable transport :
  AxiosInstance -> Config -> Net -> Completion Thrown Response * Net.

(** X14.  A first attempt that succeeds is the result: one request went
    out, on the client's own instance, and nothing was allocated. *)
Theorem first_attempt_success
  (this : AxiosClient.t) (config : Config) (w : World Config Net)
  (r : Response) (n1 : Net) :
  transport (instance this) config (net w) = (Normal r, n1) ->
  request transport this config false w
  = (Normal r, mkWorld (heap w) n1 (wire w ++ [(instance this, config)])).
Proof.
  intros H. unfold request, try_catch, instance_request. now rewrite H.
Qed.

(** X15.  The fallback is a bypass request: after a failure classified as
    network- or proxy-related, [request] does what a call with
    [bypassProxy = true] does in the world the failed attempt left. *)
Theorem fallback_is_a_bypass_request
  (this : AxiosClient.t) (config : Config) (w : World Config Net)
  (err : Thrown) (n1 : Net) :
  transport (instance this) config (net w) = (Throw err, n1) ->
  isNetErr err || looksLikeProxyIssue err = true ->
  request transport this config false w
  = request transport this config true
      (mkWorld (heap w) n1 (wire w ++ [(instance this, config)])).
Proof.
  intros H Hc. unfold request, try_catch.
  unfold instance_request at 1. rewrite H, Hc. reflexivity.
Qed.

(** X16.  Whatever the transport does, a call of [request] sends one
    request or two, never more, each with the configuration it was given
    and each on the client's own instance or on the fresh bypass instance,
    and allocates at most one object. *)
Theorem request_traffic
  (this : AxiosClient.t) (config : Config) (bypassProxy : bool)
  (w : World Config Net) :
  let w' := snd (request transport this config bypassProxy w) in
  exists sent,
    wire w' = (wire w ++ sent)%list
    /\ 1 <= List.length sent <= 2
    /\ Forall (fun ic => snd ic = config
                         /\ (fst ic = instance this
                             \/ fst ic = bypassInstance (heap w))) sent
    /\ heap w <= heap w' <= S (heap w).
Proof.
  unfold request, try_catch, bind, create_instance, axios_create,
    instance_request, throw.
  destruct bypassProxy; cbn [heap net wire negb andb].
  - destruct (transport _ config (net w)) as [o n]. cbn [snd wire heap].
    exists [(bypassInstance (heap w), config)].
    repeat split; cbn; auto.
  - destruct (transport (instance this) config (net w)) as [[r|err] n1].
    + exists [(instance this, config)]. repeat split; cbn; auto.
    + destruct (isNetErr err || looksLikeProxyIssue err).
      * cbn [heap net wire].
        destruct (transport _ config n1) as [o n2]. cbn [snd wire heap].
        exists [(instance this, config); (bypassInstance (heap w), config)].
        rewrite <- app_assoc. repeat split; cbn; auto.
      * exists [(instance this, config)]. repeat split; cbn; auto.
Qed.

End WithTransport.

End RequestFacts.

(** ** The further properties on the samples *)

Module MoreChecks.

Import AxiosClient Samples.

(** X3 for an [http:] proxy. *)
Lemma resolved_pair_is_consistent_witness :
  let d := descriptor "http://proxy.test:3128" in
  let parsed := URL.mk "http" "" "" (Some "proxy.test") (Some 3128%N) "/" in
  let agents :=
    mkAgentPair (mkAgent 0 HttpProxyAgent "http://proxy.test:3128/")
      (mkAgent 1 HttpsProxyAgent "http://proxy.test:3128/") in
  getAgentForProxy RefURL.parse socksAgent d 0 = (Normal agents, 2)
  /\ exists parsed,
      normalizedProxy RefURL.parse d = Normal parsed
      /\ agent_proxy (httpAgent agents) = URL.href parsed
      /\ agent_proxy (httpsAgent agents) = URL.href parsed
      /\ Str.startsWith (URL.href parsed) (URL.protocol parsed) = true
      /\ (URL.protocol parsed = "http:" \/ URL.protocol parsed = "https:"
          \/ Str.startsWith (URL.protocol parsed) "socks" = true)
      /\ (agent_class (httpAgent agents) = HttpProxyAgent
          <-> URL.protocol parsed = "http:")
      /\ agent_class (httpsAgent agents) <> HttpProxyAgent.
Proof.
  split; [reflexivity|].
  exact (AgentFacts.resolved_pair_is_consistent RefURL.parse socksAgent
           (descriptor "http://proxy.test:3128") 0 2 _ eq_refl).
Defined.

(** X4 for the sample client. *)
Lemma constructed_objects_are_fresh_witness :
  AxiosClient.constructor RefURL.parse socksAgent (descriptor "https://proxy.test:8080") 0
  = (Normal proxied, 3)
  /\ instance_ref (instance proxied) = 0
  /\ 0 < 3 <= 0 + 3
  /\ (forall a,
         defaults_httpAgent (instance proxied) = Some a
         \/ defaults_httpsAgent (instance proxied) = Some a ->
         0 < agent_ref a < 3).
Proof.
  split; [reflexivity|].
  exact (AgentFacts.constructed_objects_are_fresh RefURL.parse socksAgent
           (descriptor "https://proxy.test:8080") 0 3 proxied eq_refl).
Defined.

(** X6 for an address with a space in it. *)
Lemma invalid_url_is_fatal_witness :
  let d := descriptor "proxy test" in
  RefURL.parse (withScheme (url d)) = None
  /\ getAgentForProxy RefURL.parse socksAgent d 0
     = (Throw (TypeError_InvalidURL "https://proxy test"), 0)
  /\ (JS.truthy (url d) && proxyAxios d = true ->
      AxiosClient.constructor RefURL.parse socksAgent d 0
      = (Throw (TypeError_InvalidURL "https://proxy test"), 1)).
Proof.
  split; [reflexivity|].
  exact (AgentFacts.invalid_url_is_fatal RefURL.parse socksAgent
           (descriptor "proxy test") 0 eq_refl).
Defined.

(** X7 for the ports 70000 and -1. *)
Lemma out_of_range_port_is_ignored_witness :
  let d := Samples.with_port (descriptor "https://proxy.test:8080") 70000 in
  let d' := Samples.with_port (descriptor "https://proxy.test:8080") (-1) in
  (normalizedProxy RefURL.parse d = Normal (https_url (Some 8080%N))
   /\ exists u0,
       RefURL.parse (withScheme (url d)) = Some u0
       /\ URL.port (https_url (Some 8080%N)) = URL.port u0)
  /\ (normalizedProxy RefURL.parse d' = Normal (https_url (Some 8080%N))
      /\ exists u0,
          RefURL.parse (withScheme (url d')) = Some u0
          /\ URL.port (https_url (Some 8080%N)) = URL.port u0).
Proof.
  split; (split; [reflexivity|]).
  - apply (AssignFacts.out_of_range_port_is_ignored RefURL.parse
             (Samples.with_port (descriptor "https://proxy.test:8080") 70000)
             70000%Z); [reflexivity | lia | reflexivity].
  - apply (AssignFacts.out_of_range_port_is_ignored RefURL.parse
             (Samples.with_port (descriptor "https://proxy.test:8080") (-1))
             (-1)%Z); [reflexivity | lia | reflexivity].
Defined.

(** X8 for a descriptor with a port and credentials. *)
Lemma assignments_keep_the_address_witness :
  let d :=
    with_auth (Samples.with_port (descriptor "http://proxy.test:3128") 8080)
      "a@b" "p:q" in
  let parsed :=
    URL.mk "http" "a%40b" "p%3Aq" (Some "proxy.test") (Some 8080%N) "/" in
  normalizedProxy RefURL.parse d = Normal parsed
  /\ exists u0,
      RefURL.parse (withScheme (url d)) = Some u0
      /\ URL.scheme parsed = URL.scheme u0
      /\ URL.host parsed = URL.host u0
      /\ URL.tail parsed = URL.tail u0.
Proof.
  split; [reflexivity|].
  exact (AssignFacts.assignments_keep_the_address RefURL.parse
           (with_auth
              (Samples.with_port (descriptor "http://proxy.test:3128") 8080)
              "a@b" "p:q") _ eq_refl).
Defined.

(** X9 for one address with and without port and credentials. *)
Lemma outcome_depends_on_address_witness :
  let d := descriptor "http://proxy.test:3128" in
  let d' := with_auth (Samples.with_port d 8080) "a@b" "p:q" in
  url d = url d'
  /\ match normalizedProxy RefURL.parse d, normalizedProxy RefURL.parse d' with
     | Throw e, Throw e' => e = e'
     | Normal parsed, Normal parsed' =>
         URL.protocol parsed = URL.protocol parsed'
         /\ (forall a k a' k',
                getAgentForProxy RefURL.parse socksAgent d 0 = (Normal a, k) ->
                getAgentForProxy RefURL.parse socksAgent d' 0
                = (Normal a', k') ->
                agent_class (httpAgent a) = agent_class (httpAgent a')
                /\ agent_class (httpsAgent a) = agent_class (httpsAgent a')
                /\ agent_ref (httpAgent a) = agent_ref (httpAgent a')
                /\ agent_ref (httpsAgent a) = agent_ref (httpsAgent a')
                /\ k = k')
         /\ (Str.startsWith (URL.protocol parsed) "socks" = false ->
             match getAgentForProxy RefURL.parse socksAgent d 0,
                   getAgentForProxy RefURL.parse socksAgent d' 0 with
             | (Throw e, k), (Throw e', k') => e = e' /\ k = k'
             | (Normal _, _), (Normal _, _) => True
             | _, _ => False
             end)
     | _, _ => False
     end.
Proof.
  split; [reflexivity|].
  exact (AssignFacts.outcome_depends_on_address RefURL.parse socksAgent
           (descriptor "http://proxy.test:3128")
           (with_auth
              (Samples.with_port (descriptor "http://proxy.test:3128") 8080)
              "a@b" "p:q") 0 eq_refl).
Defined.

(** X10 for the user name [a@b], the password [p:q] and the character
    [@]. *)
Lemma injected_credentials_are_safe_witness :
  let d := with_auth (descriptor "http://proxy.test:3128") "a@b" "p:q" in
  (normalizedProxy RefURL.parse d = Normal auth_url
   /\ username d = Some "a@b" /\ "a@b" <> ""
   /\ URL.can_have_userinfo auth_url = true
   /\ URL.in_userinfo_set "@" = true)
  /\ Str.excludes "@" (URL.username auth_url) = true
  /\ Str.excludes "@" (URL.password auth_url) = true.
Proof.
  split; [repeat split; discriminate|].
  apply (AssignFacts.injected_credentials_are_safe RefURL.parse
           (with_auth (descriptor "http://proxy.test:3128") "a@b" "p:q")
           auth_url "a@b" "@"%char);
    [reflexivity | reflexivity | discriminate | reflexivity | reflexivity].
Defined.


(** X11 for a bare host and for the empty address. *)
Lemma bare_address_outcome_witness :
  (hasSchemePrefix (JS.String_or_empty (url (descriptor "proxy.test"))) = false
   /\ (getAgentForProxy RefURL.parse socksAgent (descriptor "proxy.test") 0
       = (Throw (TypeError_InvalidURL "https://proxy.test"), 0)
       \/ exists proxyUrl,
           getAgentForProxy RefURL.parse socksAgent (descriptor "proxy.test") 0
           = (Normal (mkAgentPair (mkAgent 0 HttpsProxyAgent proxyUrl)
                        (mkAgent 1 HttpsProxyAgent proxyUrl)), 2)))
  /\ (hasSchemePrefix (JS.String_or_empty (url (descriptor ""))) = false
      /\ (getAgentForProxy RefURL.parse socksAgent (descriptor "") 0
          = (Throw (TypeError_InvalidURL "https://"), 0)
          \/ exists proxyUrl,
              getAgentForProxy RefURL.parse socksAgent (descriptor "") 0
              = (Normal (mkAgentPair (mkAgent 0 HttpsProxyAgent proxyUrl)
                           (mkAgent 1 HttpsProxyAgent proxyUrl)), 2))).
Proof.
  split; (split; [reflexivity|]).
  - exact (AssignFacts.bare_address_outcome RefURL.parse socksAgent RefFacts.ref_laws
             (descriptor "proxy.test") 0 eq_refl).
  - exact (AssignFacts.bare_address_outcome RefURL.parse socksAgent RefFacts.ref_laws
             (descriptor "") 0 eq_refl).
Defined.

(** X12 for an error wrapped under the code [ERR_NETWORK]. *)
Lemma own_code_hides_cause_witness :
  (code (mkError (Some "ERR_NETWORK") (Some (mkCause (Some "ECONNREFUSED")))
           (Some "Network Error")) = Some "ERR_NETWORK"
   /\ "ERR_NETWORK" <> "" /\ ~ In "ERR_NETWORK" networkCodes)
  /\ isNetErr wrapped_refused = false.
Proof.
  assert (H : ~ In "ERR_NETWORK" networkCodes).
  { cbn. intros [E | [E | [E | [E | []]]]]; discriminate. }
  split; [repeat split; try discriminate; exact H|].
  exact (RequestFacts.own_code_hides_cause
           (mkError (Some "ERR_NETWORK") (Some (mkCause (Some "ECONNREFUSED")))
              (Some "Network Error"))
           "ERR_NETWORK" eq_refl ltac:(discriminate) H).
Defined.

(** X13 for a proxy error quoted, in capitals, inside a longer message. *)
Lemma proxy_issue_in_longer_message_witness :
  (looksLikeProxyIssue proxy_error = true
   /\ Str.lower (messageOf quoted_proxy_error)
      = "upstream said: " ++ Str.lower (messageOf proxy_error) ++ " (retry)")
  /\ looksLikeProxyIssue quoted_proxy_error = true.
Proof.
  split; [split; reflexivity|].
  exact (RequestFacts.proxy_issue_in_longer_message proxy_error
           quoted_proxy_error "upstream said: " " (retry)" eq_refl eq_refl).
Defined.

(** X14 for a client without a proxy. *)
Lemma first_attempt_success_witness :
  deadProxy refused (instance direct) "GET /" 0 = (Normal "200 GET /", 1)
  /\ request (deadProxy refused) direct "GET /" false (mkWorld 1 0 [])
     = (Normal "200 GET /", mkWorld 1 1 [(instance direct, "GET /")]).
Proof.
  split; [reflexivity|].
  exact (RequestFacts.first_attempt_success string string nat
           (deadProxy refused) direct "GET /" (mkWorld 1 0 []) _ 1 eq_refl).
Defined.

(** X15 for a refused connection. *)
Lemma fallback_is_a_bypass_request_witness :
  (deadProxy refused (instance proxied) "GET /" 0 = (Throw refused, 1)
   /\ isNetErr refused || looksLikeProxyIssue refused = true)
  /\ request (deadProxy refused) proxied "GET /" false world0
     = request (deadProxy refused) proxied "GET /" true
         (mkWorld 3 1 [(instance proxied, "GET /")]).
Proof.
  split; [split; reflexivity|].
  exact (RequestFacts.fallback_is_a_bypass_request string string nat
           (deadProxy refused) proxied "GET /" world0 refused 1
           eq_refl eq_refl).
Defined.

End MoreChecks.
